(** * GF-7 split manifests: a model of [generate_gf7_splits.py]

    The script enumerates the image files of the Train, Val and Test
    partitions, cuts the Train enumeration into labeled and unlabeled parts
    for several ratios after a shuffle seeded with 42, and writes one
    manifest per part.

    The development follows the script top down:
    - [Py]: the few Python built-ins the script relies on (floor division,
      slices, indexing, [sorted], string tests);
    - [Random], [MT19937]: the interface of the module [random] used by the
      script, and CPython's Mersenne Twister as an instance of it;
    - [Script]: the functions of the script over a world made of a heap of
      list objects, the hidden generator of [random], a file system and the
      standard output;
    - the properties of the partitioner, the formatter, the enumerator and
      the driver. *)

From Stdlib Require Import ZArith Lia Ascii.
From stdpp Require Import gmap strings list fin_maps sorting.

Local Open Scope Z_scope.

(** ** Python built-ins *)

Module Py.

(** [a // b] on ints is floor division, which is [Z.div]; the caller
    handles [b = 0]. *)
Definition floordiv (a b : Z) : Z := a `div` b.

(** [len(l)] as a Python int. *)
Definition len {A} (l : list A) : Z := Z.of_nat (length l).

(** A slice bound [k] is clamped into [0 .. len(l)], a negative bound
    counting from the end first. *)
Definition clamp {A} (l : list A) (k : Z) : nat :=
  Z.to_nat (Z.min (len l) (if k <? 0 then Z.max 0 (len l + k) else k)).

(** [l[:k]] *)
Definition slice_to {A} (l : list A) (k : Z) : list A := take (clamp l k) l.

(** [l[k:]] *)
Definition slice_from {A} (l : list A) (k : Z) : list A := drop (clamp l k) l.

(** [x[i], x[j] = x[j], x[i]] for positions inside the list: the
    right-hand side is read first, then [x[i]] and [x[j]] are stored in
    this order. *)
Definition swap {A} (x : list A) (i j : nat) : list A :=
  match x !! i, x !! j with
  | Some xi, Some xj => <[j:=xi]> (<[i:=xj]> x)
  | _, _ => x
  end.

(** An index [j] of [x[j]]: a negative one counts from the end; outside
    the list the access raises [IndexError] ([None] here). *)
Definition index {A} (x : list A) (j : Z) : option nat :=
  let j' := if j <? 0 then len x + j else j in
  if (0 <=? j') && (j' <? len x) then Some (Z.to_nat j') else None.

(** [sorted(l)] on strings. Strings are byte strings here, and the
    byte-wise order [String.le] is the code-point order of their UTF-8
    decoding. The order is total and antisymmetric, so the sorted
    permutation of [l] is unique and the algorithm does not matter. *)
Definition sorted (l : list string) : list string := merge_sort String.le l.

(** [s.startswith(p)], returning the rest of [s]. *)
Fixpoint strip_prefix (p s : string) : option string :=
  match p, s with
  | EmptyString, _ => Some s
  | String a p', String b s' => if decide (a = b) then strip_prefix p' s' else None
  | String _ _, EmptyString => None
  end.

(** [s.endswith(e)]: [e] is [s] or ends the tail of [s]. *)
Fixpoint endswith (e s : string) : bool :=
  bool_decide (s = e)
  || match s with
     | EmptyString => false
     | String _ s' => endswith e s'
     end.

(** [s.count(" ")] *)
Fixpoint count_spaces (s : string) : nat :=
  match s with
  | EmptyString => 0
  | String c s' => (if bool_decide (c = " "%char) then 1 else 0) + count_spaces s'
  end.

(** [s.count(c)] for a character [c]. *)
Fixpoint count_char (c : ascii) (s : string) : nat :=
  match s with
  | EmptyString => 0
  | String c' s' => (if bool_decide (c' = c) then 1 else 0) + count_char c s'
  end.

(** ["/" in s] *)
Fixpoint has_slash (s : string) : bool :=
  match s with
  | EmptyString => false
  | String c s' => bool_decide (c = "/"%char) || has_slash s'
  end.

(** [s.replace(old, new)] for a non-empty [old]: occurrences are replaced
    left to right without overlap; [skip] counts the characters of the
    occurrence still to be dropped. *)
Fixpoint replace_go (old new : string) (skip : nat) (s : string) : string :=
  match s with
  | EmptyString => EmptyString
  | String c s' =>
      match skip with
      | S k => replace_go old new k s'
      | O => match strip_prefix old s with
             | Some _ => new +:+ replace_go old new (String.length old - 1) s'
             | None => String c (replace_go old new 0 s')
             end
      end
  end.

Definition replace (s old new : string) : string := replace_go old new 0 s.

End Py.

(** ** The module [random]

    The script uses [random.seed] and [random.shuffle] of the module-level
    generator. [seed a] overwrites the whole generator state, so the state
    after seeding is a function of [a]. [randbelow n] is the draw used by
    [shuffle]; its documented range is [0 <= r < n] for [0 < n]. The loop
    of [shuffle] itself is part of the script's model below. The cached
    normal deviate that [seed] also resets plays no part in the script. *)

Class Random := {
  rng : Type;
  seed : Z → rng;
  randbelow : Z → rng → Z * rng;
  randbelow_range n g : 0 < n → 0 ≤ (randbelow n g).1 < n;
}.

(** *** CPython's generator: MT19937 *)

Module MT19937.

Definition N : nat := 624.
Definition M : nat := 397.
Definition MATRIX_A : Z := 0x9908b0df.
Definition UPPER_MASK : Z := 0x80000000.
Definition LOWER_MASK : Z := 0x7fffffff.

(** Values of type [uint32_t]. *)
Definition u32 (x : Z) : Z := x `mod` 2 ^ 32.

Record state := { mt : list Z; index : nat }.

Definition get (a : list Z) (i : nat) : Z := default 0 (a !! i).

(** [for (mti = 1; mti < N; mti++) mt[mti] = 1812433253 * (mt[mti-1] ^ (mt[mti-1] >> 30)) + mti] *)
Fixpoint init_genrand_loop (count mti : nat) (a : list Z) : list Z :=
  match count with
  | O => a
  | S count' =>
      let p := get a (mti - 1) in
      let v := u32 (1812433253 * Z.lxor p (p ≫ 30) + Z.of_nat mti) in
      init_genrand_loop count' (S mti) (<[mti:=v]> a)
  end.

Definition init_genrand (s : Z) : state :=
  {| mt := init_genrand_loop (N - 1) 1 (<[0%nat:=u32 s]> (replicate N 0));
     index := N |}.

(** First loop of [init_by_array]; [i] and [j] are the running indices. *)
Fixpoint init_by_array_mix (k i j : nat) (key : list Z) (a : list Z) : list Z :=
  match k with
  | O => a
  | S k' =>
      let p := get a (i - 1) in
      let v := u32 (Z.lxor (get a i) (u32 (Z.lxor p (p ≫ 30) * 1664525))
                    + get key j + Z.of_nat j) in
      let a := <[i:=v]> a in
      let i := S i in
      let j := S j in
      let '(a, i) := if (N <=? i)%nat then (<[0%nat:=get a (N - 1)]> a, 1%nat) else (a, i) in
      let j := if (length key <=? j)%nat then 0%nat else j in
      init_by_array_mix k' i j key a
  end.

(** Second loop of [init_by_array]; returns the array and the index. *)
Fixpoint init_by_array_fin (k i : nat) (a : list Z) : list Z :=
  match k with
  | O => a
  | S k' =>
      let p := get a (i - 1) in
      let v := u32 (Z.lxor (get a i) (u32 (Z.lxor p (p ≫ 30) * 1566083941))
                    - Z.of_nat i) in
      let a := <[i:=v]> a in
      let i := S i in
      let '(a, i) := if (N <=? i)%nat then (<[0%nat:=get a (N - 1)]> a, 1%nat) else (a, i) in
      init_by_array_fin k' i a
  end.

Definition init_by_array (key : list Z) : state :=
  let a := mt (init_genrand 19650218) in
  let k := Nat.max N (length key) in
  let a := init_by_array_mix k 1 0 key a in
  (* after [k] rounds the running index is [1 + k mod (N - 1)] *)
  let i := (1 + k `mod` (N - 1))%nat in
  let a := init_by_array_fin (N - 1) i a in
  {| mt := <[0%nat:=0x80000000]> a; index := N |}.

(** The 32-bit words of [|a|], least significant first, at least one. *)
Fixpoint key_words (fuel : nat) (a : Z) : list Z :=
  match fuel with
  | O => []
  | S fuel' =>
      if a <? 2 ^ 32 then [a]
      else a `mod` 2 ^ 32 :: key_words fuel' (a ≫ 32)
  end.

Definition random_seed (a : Z) : state :=
  let n := Z.abs a in
  init_by_array (key_words (S (Z.to_nat (Z.log2 n))) n).

Definition twist_word (a : list Z) (kk nxt far : nat) : list Z :=
  let y := Z.lor (Z.land (get a kk) UPPER_MASK) (Z.land (get a nxt) LOWER_MASK) in
  let mag := if Z.testbit y 0 then MATRIX_A else 0 in
  <[kk:=Z.lxor (Z.lxor (get a far) (y ≫ 1)) mag]> a.

Fixpoint twist_loop1 (count kk : nat) (a : list Z) : list Z :=
  match count with
  | O => a
  | S c => twist_loop1 c (S kk) (twist_word a kk (kk + 1) (kk + M))
  end.

Fixpoint twist_loop2 (count kk : nat) (a : list Z) : list Z :=
  match count with
  | O => a
  | S c => twist_loop2 c (S kk) (twist_word a kk (kk + 1) (kk + M - N))
  end.

Definition twist (a : list Z) : list Z :=
  let a := twist_loop1 (N - M) 0 a in
  let a := twist_loop2 (M - 1) (N - M) a in
  twist_word a (N - 1) 0 (M - 1).

Definition temper (y : Z) : Z :=
  let y := Z.lxor y (y ≫ 11) in
  let y := Z.lxor y (Z.land (u32 (y ≪ 7)) 0x9d2c5680) in
  let y := Z.lxor y (Z.land (u32 (y ≪ 15)) 0xefc60000) in
  Z.lxor y (y ≫ 18).

Definition genrand_uint32 (g : state) : Z * state :=
  let '(a, i) := if (N <=? index g)%nat then (twist (mt g), 0%nat)
                 else (mt g, index g) in
  (u32 (temper (get a i)), {| mt := a; index := S i |}).

(** [getrandbits(k)] for [0 < k]: one word when [k <= 32], else the words
    are assembled least significant first. *)
Fixpoint getrandbits_words (words : nat) (k : Z) (g : state) : Z * state :=
  match words with
  | O => (0, g)
  | S words' =>
      let (r, g) := genrand_uint32 g in
      let r := if k <? 32 then r ≫ (32 - k) else r in
      let (hi, g) := getrandbits_words words' (k - 32) g in
      (Z.lor r (hi ≪ 32), g)
  end.

Definition getrandbits (k : Z) (g : state) : Z * state :=
  if k <=? 32 then
    let (r, g) := genrand_uint32 g in (r ≫ (32 - k), g)
  else getrandbits_words (Z.to_nat ((k - 1) `div` 32 + 1)) k g.

(** [n.bit_length()] for [0 < n]. *)
Definition bit_length (n : Z) : Z := Z.log2 n + 1.

(** [_randbelow_with_getrandbits]: draw [k] bits until the draw is below
    [n]. The loop has no bound in CPython; here it is given a budget of
    draws and answers [None] when the budget is spent. *)
Fixpoint randbelow_loop (budget : nat) (n k : Z) (g : state) : option (Z * state) :=
  match budget with
  | O => None
  | S budget' =>
      let (r, g) := getrandbits k g in
      if n <=? r then randbelow_loop budget' n k g else Some (r, g)
  end.

Definition randbelow_budget : nat := 4096.

Definition _randbelow_with_getrandbits (n : Z) (g : state) : option (Z * state) :=
  randbelow_loop randbelow_budget n (bit_length n) g.

(** The draws below [ns], in this order, when all are within the budget. *)
Fixpoint draws (ns : list Z) (g : state) : option (list Z) :=
  match ns with
  | [] => Some []
  | n :: ns' =>
      match _randbelow_with_getrandbits n g with
      | Some (r, g') => option_map (cons r) (draws ns' g')
      | None => None
      end
  end.

(** The total draw of the instance: outside the budget it answers 0 and
    leaves the state: a device of the model, which the examples of this
    file do not reach. *)
Definition randbelow_total (n : Z) (g : state) : Z * state :=
  default (0, g) (_randbelow_with_getrandbits n g).

End MT19937.


(** MT19937 as the generator of [random]; the obligation is the range of
    its draws. *)
#[export] Program Instance mersenne_twister : Random := {|
  rng := MT19937.state;
  seed := MT19937.random_seed;
  randbelow := MT19937.randbelow_total;
|}.
Next Obligation.
  intros n g Hn.
  assert (Hword : ∀ g, 0 ≤ (MT19937.genrand_uint32 g).1).
  { intros g0. unfold MT19937.genrand_uint32, MT19937.u32.
    destruct (MT19937.N <=? MT19937.index g0)%nat; simpl;
      apply Z.mod_pos_bound; lia. }
  assert (Hwords : ∀ words k g, 0 ≤ (MT19937.getrandbits_words words k g).1).
  { induction words as [|words IH]; intros k g0; simpl; [lia|].
    pose proof (Hword g0) as Hr.
    destruct (MT19937.genrand_uint32 g0) as [r g1]; simpl in Hr.
    specialize (IH (k - 32) g1).
    destruct (MT19937.getrandbits_words words (k - 32) g1) as [hi g2]; simpl in *.
    apply Z.lor_nonneg. split; [|by apply Z.shiftl_nonneg].
    destruct (k <? 32); [by apply Z.shiftr_nonneg|done]. }
  assert (Hbits : ∀ k g, 0 ≤ (MT19937.getrandbits k g).1).
  { intros k g0. unfold MT19937.getrandbits. destruct (k <=? 32); [|apply Hwords].
    pose proof (Hword g0) as Hr.
    destruct (MT19937.genrand_uint32 g0) as [r g1]; simpl in *.
    by apply Z.shiftr_nonneg. }
  assert (Hloop : ∀ budget k g r g',
    MT19937.randbelow_loop budget n k g = Some (r, g') → 0 ≤ r < n).
  { induction budget as [|budget IH]; intros k g0 r g'; simpl; [done|].
    pose proof (Hbits k g0) as Hr.
    destruct (MT19937.getrandbits k g0) as [r0 g1]; simpl in Hr.
    destruct (n <=? r0) eqn:Hle; [apply IH|].
    intros [= <- <-]. apply Z.leb_gt in Hle. lia. }
  unfold MT19937.randbelow_total, MT19937._randbelow_with_getrandbits.
  destruct (MT19937.randbelow_loop _ _ _ _) as [[r g']|] eqn:E; simpl; [|lia].
  by eapply Hloop.
Qed.

(** ** The script

    The world of a run:
    - [heap]: the list objects, by reference, so that copies and aliases
      are told apart;
    - [random_state]: the hidden state of the module-level generator of
      [random];
    - [fs]: the file system, a map from paths to nodes; the entries of a
      directory are the paths directly under it;
    - [stdout]: the lines printed.

    The file system is an ideal one: [mkdir] and [open(..., "w")] succeed.
    The progress messages that [main] prints are left out; the warning of
    [get_image_files] is kept. *)

Section Script.
Context {R : Random}.

Definition loc := positive.

Inductive node := Dir | File (content : string).

Record world := World {
  heap : gmap loc (list string);
  random_state : rng;
  fs : gmap string node;
  stdout : list string;
}.

Inductive exn := ZeroDivisionError | IndexError.

(** A call returns a value, raises an exception, or is stuck on a
    reference that names no object (no Python program is). *)
Inductive outcome (A : Type) :=
  | Returns (a : A) (w : world)
  | Raises (e : exn) (w : world)
  | Stuck.
Global Arguments Returns {A} a w.
Global Arguments Raises {A} e w.
Global Arguments Stuck {A}.

Definition M (A : Type) : Type := world → outcome A.

Global Instance M_ret : MRet M := λ A a w, Returns a w.
Global Instance M_bind : MBind M := λ A B k m w,
  match m w with
  | Returns a w' => k a w'
  | Raises e w' => Raises e w'
  | Stuck => Stuck
  end.

Definition set_heap (h : gmap loc (list string)) (w : world) : world :=
  {| heap := h; random_state := random_state w; fs := fs w; stdout := stdout w |}.
Definition set_random_state (g : rng) (w : world) : world :=
  {| heap := heap w; random_state := g; fs := fs w; stdout := stdout w |}.
Definition set_fs (f : gmap string node) (w : world) : world :=
  {| heap := heap w; random_state := random_state w; fs := f; stdout := stdout w |}.
Definition set_stdout (o : list string) (w : world) : world :=
  {| heap := heap w; random_state := random_state w; fs := fs w; stdout := o |}.

Definition raise {A} (e : exn) : M A := λ w, Raises e w.

(** *** List objects *)

Definition new_list (l : list string) : M loc := λ w,
  let x := fresh (dom (heap w)) in
  Returns x (set_heap (<[x:=l]> (heap w)) w).

Definition read (x : loc) : M (list string) := λ w,
  match heap w !! x with
  | Some l => Returns l w
  | None => Stuck
  end.

Definition store (x : loc) (l : list string) : M unit := λ w,
  Returns () (set_heap (<[x:=l]> (heap w)) w).

(** [x.copy()] *)
Definition list_copy (x : loc) : M loc := l ← read x; new_list l.

(** [len(x)] *)
Definition list_len (x : loc) : M Z := l ← read x; mret (Py.len l).

(** [x[:k]] and [x[k:]]: new lists. *)
Definition list_slice_to (x : loc) (k : Z) : M loc :=
  l ← read x; new_list (Py.slice_to l k).
Definition list_slice_from (x : loc) (k : Z) : M loc :=
  l ← read x; new_list (Py.slice_from l k).

(** [x[i], x[j] = x[j], x[i]] *)
Definition list_exchange (x : loc) (i j : Z) : M unit :=
  l ← read x;
  match Py.index l i, Py.index l j with
  | Some i', Some j' => store x (Py.swap l i' j')
  | _, _ => raise IndexError
  end.

(** [a // b] *)
Definition int_floordiv (a b : Z) : M Z :=
  if b =? 0 then raise ZeroDivisionError else mret (Py.floordiv a b).

(** *** [random] *)

(** [random.seed(a)] *)
Definition random_seed (a : Z) : M unit := λ w,
  Returns () (set_random_state (seed a) w).

Definition random_randbelow (n : Z) : M Z := λ w,
  let (r, g) := randbelow n (random_state w) in
  Returns r (set_random_state g w).

(** The loop of [random.shuffle]:
    [for i in reversed(range(1, len(x))): j = randbelow(i + 1); x[i], x[j] = x[j], x[i]];
    [shuffle_from n x] runs it for [i = n, ..., 1]. *)
Fixpoint shuffle_from (n : nat) (x : loc) : M unit :=
  match n with
  | O => mret ()
  | S n' =>
      let i := Z.of_nat (S n') in
      j ← random_randbelow (i + 1);
      list_exchange x i j;;
      shuffle_from n' x
  end.

(** [random.shuffle(x)], in place. *)
Definition random_shuffle (x : loc) : M unit :=
  l ← read x; shuffle_from (length l - 1) x.

(** *** Files and output *)

Definition newline : string := String "010"%char EmptyString.

(** [print(s)] *)
Definition print (s : string) : M unit := λ w,
  Returns () (set_stdout (stdout w ++ [s]) w).

(** [Path(p) / q], for the normalised relative paths of the script. *)
Definition path_join (p q : string) : string := p +:+ "/" +:+ q.

(** [p.exists()] *)
Definition path_exists (p : string) : M bool := λ w,
  Returns (bool_decide (is_Some (fs w !! p))) w.

(** The name of [p] when [p] lies directly under the directory [d]. *)
Definition child_name (d p : string) : option string :=
  match Py.strip_prefix (d +:+ "/") p with
  | Some name =>
      if Py.has_slash name || bool_decide (name = "") then None else Some name
  | None => None
  end.

Definition listdir (f : gmap string node) (d : string) : list string :=
  omap (λ e, child_name d e.1) (map_to_list f).

(** [[f.name for f in d.glob("*" + ext)]]: the entries of the directory
    [d] whose names end with [ext], in the order the system lists them;
    nothing when [d] is not a directory. *)
Definition glob_names (d ext : string) : M (list string) := λ w,
  Returns
    (match fs w !! d with
     | Some Dir => filter (λ name, Py.endswith ext name) (listdir (fs w) d)
     | _ => []
     end) w.

(** [p.mkdir(exist_ok=True)] *)
Definition mkdir (p : string) : M unit := λ w,
  Returns () (match fs w !! p with
              | Some _ => w
              | None => set_fs (<[p:=Dir]> (fs w)) w
              end).

(** The proper ancestors of a path, outermost first. *)
Fixpoint parents_go (acc s : string) : list string :=
  match s with
  | EmptyString => []
  | String c s' =>
      (if bool_decide (c = "/"%char) then [acc] else [])
      ++ parents_go (acc +:+ String c EmptyString) s'
  end.
Definition parents (p : string) : list string := parents_go "" p.

(** [p.mkdir(parents=True, exist_ok=True)] *)
Definition mkdir_parents (p : string) : M unit :=
  foldr (λ d k, mkdir d;; k) (mkdir p) (parents p).

(** [open(path, "w")] followed by the writes of [text]. *)
Definition write_file (path text : string) : M unit := λ w,
  Returns () (set_fs (<[path:=File text]> (fs w)) w).

(** *** The functions of the script *)

(** [get_image_files], lines 17-26. *)
Definition get_image_files (base_dir split : string) : M loc :=
  let image_dir := path_join (path_join base_dir split) "image" in
  e ← path_exists image_dir;
  if negb e then
    print ("Warning: " +:+ image_dir +:+ " does not exist");;
    new_list []
  else
    names ← glob_names image_dir ".tif";
    new_list (Py.sorted names).

(** [create_split_line], lines 29-34; [base_name] is computed and not
    used. *)
Definition create_split_line (image_name split : string) : string :=
  let base_name := Py.replace image_name ".tif" "" in
  split +:+ "/image/" +:+ image_name +:+ " " +:+ split +:+ "/label/" +:+ image_name.

(** [generate_labeled_unlabeled_split], lines 37-57. *)
Definition generate_labeled_unlabeled_split
    (all_images : loc) (ratio : Z) (split_name : string) : M (loc * loc) :=
  random_seed 42;;
  shuffled ← list_copy all_images;
  random_shuffle shuffled;;
  n ← list_len shuffled;
  num_labeled ← int_floordiv n ratio;
  labeled ← list_slice_to shuffled num_labeled;
  unlabeled ← list_slice_from shuffled num_labeled;
  mret (labeled, unlabeled).

(** The text written by
    [for img in images: f.write(create_split_line(img, split) + "\n")]. *)
Definition manifest (images : list string) (split : string) : string :=
  foldr (λ img rest, create_split_line img split +:+ newline +:+ rest) "" images.

(** [with open(path, "w") as f: for img in images: f.write(...)] *)
Definition write_split_file (path : string) (images : loc) (split : string) : M unit :=
  l ← read images; write_file path (manifest l split).

(** The block of [main] repeated for the ratios 32, 64, 16, 8 and 4
    (lines 116-129, 139-152, 162-175, 185-198, 208-221). *)
Definition ratio_split (output_dir : string) (train_images : loc)
    (ratio : Z) (name : string) : M (loc * loc) :=
  '(labeled, unlabeled) ← generate_labeled_unlabeled_split train_images ratio "Train";
  let split_dir := path_join output_dir name in
  mkdir split_dir;;
  write_split_file (path_join split_dir "labeled.txt") labeled "Train";;
  write_split_file (path_join split_dir "unlabeled.txt") unlabeled "Train";;
  mret (labeled, unlabeled).

(** [l[:max(1, len(l) // 100)]] on the contents of a list. *)
Definition small_of (l : list string) : list string :=
  Py.slice_to l (Z.max 1 (Py.floordiv (Py.len l) 100)).

(** [x[:max(1, len(x) // 100)]], lines 232, 233, 257 and 258. *)
Definition small_slice (x : loc) : M loc :=
  l ← read x; new_list (small_of l).

(** The block of [main] repeated for [small_1_32] and [small_1_64]
    (lines 232-246, 257-271). *)
Definition small_split (output_dir : string) (labeled unlabeled : loc)
    (name : string) : M unit :=
  small_labeled ← small_slice labeled;
  small_unlabeled ← small_slice unlabeled;
  let small_dir := path_join output_dir name in
  mkdir small_dir;;
  write_split_file (path_join small_dir "labeled.txt") small_labeled "Train";;
  write_split_file (path_join small_dir "unlabeled.txt") small_unlabeled "Train".

Definition base_dir : string := "data/gf-7-building-4bands".
Definition output_dir : string := "UniMatch-V2/splits/gf7-building".

(** [main], lines 60-297, without its progress messages. *)
Definition main : M unit :=
  mkdir_parents output_dir;;
  train_images ← get_image_files base_dir "Train";
  val_images ← get_image_files base_dir "Val";
  test_images ← get_image_files base_dir "Test";
  write_split_file (path_join output_dir "val.txt") val_images "Val";;
  write_split_file (path_join output_dir "test.txt") test_images "Test";;
  let all_dir := path_join output_dir "all" in
  mkdir all_dir;;
  write_split_file (path_join all_dir "labeled.txt") train_images "Train";;
  '(labeled_32, unlabeled_32) ← ratio_split output_dir train_images 32 "1_32";
  '(labeled_64, unlabeled_64) ← ratio_split output_dir train_images 64 "1_64";
  ratio_split output_dir train_images 16 "1_16";;
  ratio_split output_dir train_images 8 "1_8";;
  ratio_split output_dir train_images 4 "1_4";;
  small_split output_dir labeled_32 unlabeled_32 "small_1_32";;
  small_split output_dir labeled_64 unlabeled_64 "small_1_64".

(** *** The values computed by the script

    The functions above work on references. The definitions below name
    the contents they leave in the lists; the lemmas of the next part
    connect the two. *)

(** The contents of [x] and the generator after [shuffle_from n x]. *)
Fixpoint shuffled_from (n : nat) (l : list string) (g : rng) : list string * rng :=
  match n with
  | O => (l, g)
  | S n' =>
      let (j, g') := randbelow (Z.of_nat (S n') + 1) g in
      shuffled_from n' (Py.swap l (S n') (Z.to_nat j)) g'
  end.

Definition shuffled (l : list string) (g : rng) : list string * rng :=
  shuffled_from (length l - 1) l g.

(** The contents of [labeled] and [unlabeled] for the input contents [l],
    and the generator left behind. *)
Definition labeled_of (l : list string) (ratio : Z) : list string :=
  let sh := (shuffled l (seed 42)).1 in
  Py.slice_to sh (Py.floordiv (Py.len sh) ratio).
Definition unlabeled_of (l : list string) (ratio : Z) : list string :=
  let sh := (shuffled l (seed 42)).1 in
  Py.slice_from sh (Py.floordiv (Py.len sh) ratio).

(** The three lists a call of the partitioner allocates (the copy,
    [labeled], [unlabeled]) and the heap it leaves. *)
Definition copy_loc (w : world) : loc := fresh (dom (heap w)).
Definition labeled_loc (w : world) (l : list string) : loc :=
  fresh (dom (<[copy_loc w:=l]> (heap w))).
Definition unlabeled_loc (w : world) (l l1 : list string) : loc :=
  fresh (dom (<[labeled_loc w l:=l1]> (<[copy_loc w:=l]> (heap w)))).

Definition split_heap (w : world) (l : list string) (ratio : Z) : gmap loc (list string) :=
  let sh := (shuffled l (seed 42)).1 in
  <[unlabeled_loc w sh (labeled_of l ratio):=unlabeled_of l ratio]>
    (<[labeled_loc w sh:=labeled_of l ratio]> (<[copy_loc w:=sh]> (heap w))).

(** A call of the partitioner on the world [w] returns two lists whose
    contents are [L] and [U], in the world [w']. *)
Definition split_returns (all_images : loc) (ratio : Z) (split_name : string)
    (w : world) (L U : list string) (w' : world) : Prop :=
  ∃ labeled unlabeled,
    generate_labeled_unlabeled_split all_images ratio split_name w
      = Returns (labeled, unlabeled) w'
    ∧ heap w' !! labeled = Some L ∧ heap w' !! unlabeled = Some U.

(** The contents of the list returned by [get_image_files]. *)
Definition image_files (f : gmap string node) (base_dir split : string) : list string :=
  let image_dir := path_join (path_join base_dir split) "image" in
  match f !! image_dir with
  | Some Dir => Py.sorted (filter (λ name, Py.endswith ".tif" name) (listdir f image_dir))
  | _ => []
  end.

(** The effect of [mkdir] and of a written file on the file system. *)
Definition fs_mkdir (p : string) (f : gmap string node) : gmap string node :=
  match f !! p with Some _ => f | None => <[p:=Dir]> f end.
Definition fs_write (p text : string) (f : gmap string node) : gmap string node :=
  <[p:=File text]> f.

(** The files of one split directory. *)
Definition split_files (dir : string) (L U : list string)
    (f : gmap string node) : gmap string node :=
  fs_write (path_join dir "unlabeled.txt") (manifest U "Train")
    (fs_write (path_join dir "labeled.txt") (manifest L "Train") (fs_mkdir dir f)).

(** The file system after [main], from the one before. *)
Definition main_files (f0 : gmap string node) : gmap string node :=
  let f := foldl (λ f d, fs_mkdir d f) f0 (parents output_dir ++ [output_dir]) in
  let train := image_files f base_dir "Train" in
  let val := image_files f base_dir "Val" in
  let test := image_files f base_dir "Test" in
  let f := fs_write (path_join output_dir "val.txt") (manifest val "Val") f in
  let f := fs_write (path_join output_dir "test.txt") (manifest test "Test") f in
  let f := fs_mkdir (path_join output_dir "all") f in
  let f := fs_write (path_join (path_join output_dir "all") "labeled.txt")
             (manifest train "Train") f in
  let f := split_files (path_join output_dir "1_32")
             (labeled_of train 32) (unlabeled_of train 32) f in
  let f := split_files (path_join output_dir "1_64")
             (labeled_of train 64) (unlabeled_of train 64) f in
  let f := split_files (path_join output_dir "1_16")
             (labeled_of train 16) (unlabeled_of train 16) f in
  let f := split_files (path_join output_dir "1_8")
             (labeled_of train 8) (unlabeled_of train 8) f in
  let f := split_files (path_join output_dir "1_4")
             (labeled_of train 4) (unlabeled_of train 4) f in
  let f := split_files (path_join output_dir "small_1_32")
             (small_of (labeled_of train 32)) (small_of (unlabeled_of train 32)) f in
  split_files (path_join output_dir "small_1_64")
    (small_of (labeled_of train 64)) (small_of (unlabeled_of train 64)) f.

(** The paths [main] creates or writes. *)
Definition split_paths (name : string) : list string :=
  let dir := path_join output_dir name in
  [dir; path_join dir "labeled.txt"; path_join dir "unlabeled.txt"].
Definition main_paths : list string :=
  parents output_dir
  ++ [output_dir; path_join output_dir "val.txt"; path_join output_dir "test.txt";
      path_join output_dir "all";
      path_join (path_join output_dir "all") "labeled.txt"]
  ++ split_paths "1_32" ++ split_paths "1_64" ++ split_paths "1_16"
  ++ split_paths "1_8" ++ split_paths "1_4"
  ++ split_paths "small_1_32" ++ split_paths "small_1_64".

(** The manifests [main] writes, as pairs of a path and a text, for the
    three enumerations. *)
Definition split_manifests (name : string) (L U : list string) : list (string * string) :=
  let dir := path_join output_dir name in
  [(path_join dir "labeled.txt", manifest L "Train");
   (path_join dir "unlabeled.txt", manifest U "Train")].
Definition main_manifests (train val test : list string) : list (string * string) :=
  [(path_join output_dir "val.txt", manifest val "Val");
   (path_join output_dir "test.txt", manifest test "Test");
   (path_join (path_join output_dir "all") "labeled.txt", manifest train "Train")]
  ++ split_manifests "1_4" (labeled_of train 4) (unlabeled_of train 4)
  ++ split_manifests "1_8" (labeled_of train 8) (unlabeled_of train 8)
  ++ split_manifests "1_16" (labeled_of train 16) (unlabeled_of train 16)
  ++ split_manifests "1_32" (labeled_of train 32) (unlabeled_of train 32)
  ++ split_manifests "1_64" (labeled_of train 64) (unlabeled_of train 64)
  ++ split_manifests "small_1_32"
       (small_of (labeled_of train 32)) (small_of (unlabeled_of train 32))
  ++ split_manifests "small_1_64"
       (small_of (labeled_of train 64)) (small_of (unlabeled_of train 64)).


(** The directories [main] makes. *)
Definition main_dirs : list string :=
  parents output_dir
  ++ [output_dir; path_join output_dir "all"]
  ++ (path_join output_dir <$>
        ["1_32"; "1_64"; "1_16"; "1_8"; "1_4"; "small_1_32"; "small_1_64"]).


(** [m] returns from [w], and [Q] holds of the result and the new world. *)
Definition returns {A} (m : M A) (w : world) (Q : A → world → Prop) : Prop :=
  match m w with
  | Returns a w' => Q a w'
  | _ => False
  end.

End Script.

(** ** Example worlds

    Worlds with CPython's generator, as a Python process that has called
    [random.seed(2024)] (or [random.seed(7)]) and holds a few lists. *)

Definition abcd : list string := ["a.tif"; "b.tif"; "c.tif"; "d.tif"].

Definition abcd_world : world :=
  {| heap := {[1%positive := abcd]}; random_state := seed 2024;
     fs := ∅; stdout := [] |}.

Definition other_world : world :=
  {| heap := <[5%positive := abcd]> {[1%positive := ["z.tif"]]};
     random_state := seed 7;
     fs := {[ "data/gf-7-building-4bands/Train/image" := Dir ]};
     stdout := ["started"] |}.

(** A Train directory with two images, a file of another kind and a
    nested image. *)
Definition demo_fs : gmap string node :=
  list_to_map
    [("data/Train/image", Dir);
     ("data/Train/image/b.tif", File "");
     ("data/Train/image/a.tif", File "");
     ("data/Train/image/notes.txt", File "");
     ("data/Train/image/old", Dir);
     ("data/Train/image/old/c.tif", File "");
     ("data/Train/label/a.tif", File "")].




(** ** Properties *)

(** *** Python built-ins *)

Lemma len_nonneg {A} (l : list A) : 0 ≤ Py.len l.
Proof. unfold Py.len. lia. Qed.

Lemma clamp_in_range {A} (l : list A) k :
  0 ≤ k ≤ Py.len l → Py.clamp l k = Z.to_nat k.
Proof.
  intros Hk. unfold Py.clamp. destruct (k <? 0) eqn:E; [apply Z.ltb_lt in E; lia|].
  f_equal. lia.
Qed.

Lemma slice_to_from {A} (l : list A) k : Py.slice_to l k ++ Py.slice_from l k = l.
Proof. apply take_drop. Qed.

Lemma index_in_range {A} (l : list A) j :
  0 ≤ j < Py.len l → Py.index l j = Some (Z.to_nat j).
Proof.
  intros Hj. unfold Py.index.
  destruct (j <? 0) eqn:E; [apply Z.ltb_lt in E; lia|].
  destruct (0 <=? j) eqn:E1; [|apply Z.leb_gt in E1; lia].
  destruct (j <? Py.len l) eqn:E2; [done|apply Z.ltb_ge in E2; lia].
Qed.

Lemma strip_prefix_spec p s r : Py.strip_prefix p s = Some r ↔ s = p +:+ r.
Proof.
  revert s. induction p as [|a p IH]; intros s; simpl.
  - split; [by intros [= ->]|by intros ->].
  - destruct s as [|b s]; [done|].
    destruct (decide (a = b)) as [->|Hne].
    + rewrite IH. split; [by intros ->|by intros [= ->]].
    + split; [done|]. intros [= -> _]. done.
Qed.

Lemma endswith_spec e s : Py.endswith e s = true ↔ ∃ stem, s = stem +:+ e.
Proof.
  induction s as [|c s IH]; simpl.
  - rewrite orb_false_r, bool_decide_eq_true. split.
    + intros <-. by exists "".
    + intros [[|??] Heq]; simpl in Heq; [done|discriminate].
  - rewrite orb_true_iff, bool_decide_eq_true, IH. split.
    + intros [<-|[stem ->]]; [by exists ""|by exists (String c stem)].
    + intros [[|c' stem] Heq]; simpl in Heq; [by left|].
      injection Heq as -> ->. right. by exists stem.
Qed.

Lemma count_spaces_app a b :
  Py.count_spaces (a +:+ b) = (Py.count_spaces a + Py.count_spaces b)%nat.
Proof. induction a as [|c a IH]; simpl; [done|]. rewrite IH. lia. Qed.

Lemma swap_length {A} (l : list A) i j : length (Py.swap l i j) = length l.
Proof.
  unfold Py.swap. destruct (l !! i), (l !! j); by rewrite ?length_insert.
Qed.

Lemma swap_lookup {A} (l : list A) i j k :
  (i < length l)%nat → (j < length l)%nat →
  Py.swap l i j !! k = l !! (if decide (k = i) then j else if decide (k = j) then i else k).
Proof.
  intros Hi Hj. unfold Py.swap.
  destruct (lookup_lt_is_Some_2 l i Hi) as [xi Hxi].
  destruct (lookup_lt_is_Some_2 l j Hj) as [xj Hxj].
  rewrite Hxi, Hxj.
  destruct (decide (k = j)) as [->|Hkj].
  - rewrite list_lookup_insert_eq by (rewrite length_insert; lia).
    destruct (decide (j = i)) as [->|]; congruence.
  - rewrite list_lookup_insert_ne by done.
    destruct (decide (k = i)) as [->|Hki].
    + by rewrite list_lookup_insert_eq.
    + by rewrite list_lookup_insert_ne.
Qed.

Lemma swap_Permutation {A} (l : list A) i j : Py.swap l i j ≡ₚ l.
Proof.
  destruct (decide (i < length l)%nat) as [Hi|Hi]; last first.
  { unfold Py.swap. rewrite (lookup_ge_None_2 l i) by lia. done. }
  destruct (decide (j < length l)%nat) as [Hj|Hj]; last first.
  { unfold Py.swap. rewrite (lookup_ge_None_2 l j) by lia. by destruct (l !! i). }
  apply Permutation_inj. split; [apply swap_length|].
  exists (λ k, if decide (k = i) then j else if decide (k = j) then i else k).
  split; [|intros k; by apply swap_lookup].
  intros a b. repeat case_decide; congruence.
Qed.

Section Properties.
Context {R : Random}.
Implicit Types (w : world) (x : loc) (l : list string).

(** *** Reasoning about calls *)

Lemma returns_intro {A} (m : M A) w a w' (Q : A → world → Prop) :
  m w = Returns a w' → Q a w' → returns m w Q.
Proof. unfold returns. by intros ->. Qed.

Lemma returns_elim {A} (m : M A) w (Q : A → world → Prop) :
  returns m w Q → ∃ a w', m w = Returns a w' ∧ Q a w'.
Proof. unfold returns. destruct (m w); naive_solver. Qed.

Lemma returns_mono {A} (m : M A) w (Q Q' : A → world → Prop) :
  returns m w Q → (∀ a w', Q a w' → Q' a w') → returns m w Q'.
Proof. unfold returns. destruct (m w); naive_solver. Qed.

Lemma returns_bind {A B} (m : M A) (k : A → M B) w (Q : B → world → Prop) :
  returns m w (λ a w', returns (k a) w' Q) → returns (m ≫= k) w Q.
Proof. unfold returns, mbind, M_bind. by destruct (m w). Qed.

Lemma returns_ret {A} (a : A) w (Q : A → world → Prop) :
  Q a w → returns (mret a) w Q.
Proof. done. Qed.

Lemma fresh_loc_None w : heap w !! fresh (dom (heap w)) = None.
Proof. apply not_elem_of_dom, is_fresh. Qed.

(** *** The shuffle *)

Lemma shuffled_from_length n l g : length (shuffled_from n l g).1 = length l.
Proof.
  revert l g. induction n as [|n IH]; intros l g; simpl; [done|].
  destruct (randbelow _ g) as [j g']. by rewrite IH, swap_length.
Qed.

Lemma shuffled_from_Permutation n l g : (shuffled_from n l g).1 ≡ₚ l.
Proof.
  revert l g. induction n as [|n IH]; intros l g; simpl; [done|].
  destruct (randbelow _ g) as [j g']. by rewrite IH, swap_Permutation.
Qed.

Lemma shuffled_length l g : length (shuffled l g).1 = length l.
Proof. apply shuffled_from_length. Qed.

Lemma shuffled_Permutation l g : (shuffled l g).1 ≡ₚ l.
Proof. apply shuffled_from_Permutation. Qed.

(** [shuffle_from] on the heap computes [shuffled_from]: it returns, and
    changes the object [x] and the generator only. *)
Lemma shuffle_from_spec n x l w :
  heap w !! x = Some l → (n < length l)%nat →
  shuffle_from n x w =
    Returns () (set_random_state (shuffled_from n l (random_state w)).2
                  (set_heap (<[x:=(shuffled_from n l (random_state w)).1]> (heap w)) w)).
Proof.
  revert l w. induction n as [|n IH]; intros l w Hx Hn.
  - simpl. rewrite insert_id by done. by destruct w.
  - cbn [shuffle_from shuffled_from].
    unfold mbind, M_bind, random_randbelow.
    pose proof (randbelow_range (Z.of_nat (S n) + 1) (random_state w)) as Hr.
    destruct (randbelow (Z.of_nat (S n) + 1) (random_state w)) as [j g']; simpl in Hr.
    unfold list_exchange, mbind, M_bind, read. simpl. rewrite Hx.
    rewrite !index_in_range by (unfold Py.len; lia).
    rewrite Nat2Z.id. unfold store. simpl.
    rewrite (IH (Py.swap l (S n) (Z.to_nat j))); simpl.
    + by rewrite insert_insert_eq.
    + by rewrite lookup_insert_eq.
    + rewrite swap_length. lia.
Qed.

Lemma random_shuffle_spec x l w :
  heap w !! x = Some l →
  random_shuffle x w =
    Returns () (set_random_state (shuffled l (random_state w)).2
                  (set_heap (<[x:=(shuffled l (random_state w)).1]> (heap w)) w)).
Proof.
  intros Hx. unfold random_shuffle, mbind, M_bind, read. rewrite Hx.
  destruct l as [|a l].
  - simpl. rewrite insert_id by done. by destruct w.
  - apply shuffle_from_spec; [done|simpl; lia].
Qed.

(** *** The partitioner on the heap *)

Lemma generate_labeled_unlabeled_split_run all_images ratio split_name l w :
  heap w !! all_images = Some l → ratio ≠ 0 →
  generate_labeled_unlabeled_split all_images ratio split_name w =
    Returns (labeled_loc w (shuffled l (seed 42)).1,
             unlabeled_loc w (shuffled l (seed 42)).1 (labeled_of l ratio))
      {| heap := split_heap w l ratio;
         random_state := (shuffled l (seed 42)).2;
         fs := fs w; stdout := stdout w |}.
Proof.
  intros Hx Hr. unfold generate_labeled_unlabeled_split.
  unfold mbind at 1, M_bind at 1. unfold random_seed.
  unfold mbind at 1, M_bind at 1.
  unfold list_copy, mbind at 1, M_bind at 1, read. simpl. rewrite Hx.
  unfold new_list. simpl.
  set (a := fresh (dom (heap w))).
  unfold mbind at 1, M_bind at 1.
  erewrite random_shuffle_spec by (simpl; apply lookup_insert_eq).
  simpl. rewrite insert_insert_eq.
  set (sh := (shuffled l (seed 42)).1).
  unfold mbind at 1, M_bind at 1.
  unfold list_len, mbind at 1, M_bind at 1, read. simpl. rewrite lookup_insert_eq.
  unfold mret, M_ret.
  unfold mbind at 1, M_bind at 1, int_floordiv.
  destruct (ratio =? 0) eqn:E; [apply Z.eqb_eq in E; done|].
  unfold mbind at 1, M_bind at 1.
  unfold list_slice_to, mbind at 1, M_bind at 1, read. simpl. rewrite lookup_insert_eq.
  unfold new_list. simpl.
  unfold mbind at 1, M_bind at 1.
  unfold list_slice_from, mbind at 1, M_bind at 1, read. simpl.
  rewrite lookup_insert_ne; last first.
  { intros Heq. pose proof (is_fresh (dom (<[a:=sh]> (heap w)))) as Hf.
    rewrite Heq in Hf. apply Hf. rewrite dom_insert_L. set_solver. }
  rewrite lookup_insert_eq. simpl. done.
Qed.

Lemma split_heap_labeled w l ratio :
  split_heap w l ratio !! labeled_loc w (shuffled l (seed 42)).1
    = Some (labeled_of l ratio).
Proof.
  unfold split_heap. cbv zeta.
  set (sh := (shuffled l (seed 42)).1).
  pose proof (is_fresh (dom (<[labeled_loc w sh:=labeled_of l ratio]>
                               (<[copy_loc w:=sh]> (heap w))))) as Hc.
  fold (unlabeled_loc w sh (labeled_of l ratio)) in Hc.
  rewrite !dom_insert_L in Hc.
  rewrite lookup_insert_ne by set_solver.
  apply lookup_insert_eq.
Qed.

Lemma split_heap_unlabeled w l ratio :
  split_heap w l ratio
    !! unlabeled_loc w (shuffled l (seed 42)).1 (labeled_of l ratio)
    = Some (unlabeled_of l ratio).
Proof. apply lookup_insert_eq. Qed.

(** The objects that existed before the call are untouched. *)
Lemma split_heap_extends w l ratio : heap w ⊆ split_heap w l ratio.
Proof.
  unfold split_heap. cbv zeta.
  set (sh := (shuffled l (seed 42)).1).
  pose proof (is_fresh (dom (heap w))) as Ha.
  pose proof (is_fresh (dom (<[copy_loc w:=sh]> (heap w)))) as Hb.
  pose proof (is_fresh (dom (<[labeled_loc w sh:=labeled_of l ratio]>
                               (<[copy_loc w:=sh]> (heap w))))) as Hc.
  fold (copy_loc w) in Ha. fold (labeled_loc w sh) in Hb.
  fold (unlabeled_loc w sh (labeled_of l ratio)) in Hc.
  etrans; [apply (insert_subseteq _ (copy_loc w) sh); by apply not_elem_of_dom|].
  etrans; [apply (insert_subseteq _ (labeled_loc w sh) (labeled_of l ratio));
           by apply not_elem_of_dom|].
  apply insert_subseteq. by apply not_elem_of_dom.
Qed.

(** The call returns, with the contents [labeled_of] and [unlabeled_of]. *)
Lemma split_returns_values all_images ratio split_name l w :
  heap w !! all_images = Some l → ratio ≠ 0 →
  ∃ w', split_returns all_images ratio split_name w
          (labeled_of l ratio) (unlabeled_of l ratio) w'
        ∧ heap w ⊆ heap w'
        ∧ random_state w' = (shuffled l (seed 42)).2
        ∧ fs w' = fs w ∧ stdout w' = stdout w.
Proof.
  intros Hx Hr.
  exists {| heap := split_heap w l ratio;
            random_state := (shuffled l (seed 42)).2;
            fs := fs w; stdout := stdout w |}.
  split; [|split; [apply split_heap_extends|done]].
  eexists _, _. split; [by apply generate_labeled_unlabeled_split_run|].
  simpl. split; [apply split_heap_labeled|apply split_heap_unlabeled].
Qed.

(** A call has one outcome. *)
Lemma split_returns_inj all_images ratio split_name w L U w' L' U' w'' :
  split_returns all_images ratio split_name w L U w' →
  split_returns all_images ratio split_name w L' U' w'' →
  L = L' ∧ U = U' ∧ w' = w''.
Proof.
  intros (a & b & Hrun & Ha & Hb) (a' & b' & Hrun' & Ha' & Hb').
  rewrite Hrun in Hrun'. injection Hrun' as <- <- <-.
  rewrite Ha in Ha'. rewrite Hb in Hb'. by simplify_eq.
Qed.

(** *** The values of the partitioner *)

Lemma labeled_unlabeled_app l ratio :
  labeled_of l ratio ++ unlabeled_of l ratio = (shuffled l (seed 42)).1.
Proof. apply slice_to_from. Qed.

Lemma cut_in_range l ratio :
  0 < ratio → 0 ≤ Py.floordiv (Py.len l) ratio ≤ Py.len l.
Proof.
  intros Hr. pose proof (len_nonneg l). unfold Py.floordiv. split.
  - by apply Z.div_pos.
  - apply Z.div_le_upper_bound; nia.
Qed.

Lemma shuffled_len l g : Py.len (shuffled l g).1 = Py.len l.
Proof. unfold Py.len. by rewrite shuffled_length. Qed.

Lemma labeled_of_take l ratio :
  0 < ratio →
  labeled_of l ratio
    = take (Z.to_nat (Py.floordiv (Py.len l) ratio)) (shuffled l (seed 42)).1.
Proof.
  intros Hr. unfold labeled_of, Py.slice_to. cbv zeta.
  rewrite clamp_in_range; rewrite shuffled_len; [done|by apply cut_in_range].
Qed.

Lemma unlabeled_of_drop l ratio :
  0 < ratio →
  unlabeled_of l ratio
    = drop (Z.to_nat (Py.floordiv (Py.len l) ratio)) (shuffled l (seed 42)).1.
Proof.
  intros Hr. unfold unlabeled_of, Py.slice_from. cbv zeta.
  rewrite clamp_in_range; rewrite shuffled_len; [done|by apply cut_in_range].
Qed.

Lemma labeled_of_len l ratio :
  0 < ratio → Py.len (labeled_of l ratio) = Py.floordiv (Py.len l) ratio.
Proof.
  intros Hr. rewrite labeled_of_take by done. pose proof (cut_in_range l ratio Hr).
  unfold Py.len in *. rewrite length_take, shuffled_length. lia.
Qed.

Lemma unlabeled_of_len l ratio :
  0 < ratio →
  Py.len (unlabeled_of l ratio) = Py.len l - Py.floordiv (Py.len l) ratio.
Proof.
  intros Hr. rewrite unlabeled_of_drop by done. pose proof (cut_in_range l ratio Hr).
  unfold Py.len in *. rewrite length_drop, shuffled_length. lia.
Qed.

(** With [ratio = 0] the division raises, after the seeding, the copy and
    the shuffle. *)
Lemma generate_labeled_unlabeled_split_zero all_images split_name l w :
  heap w !! all_images = Some l →
  generate_labeled_unlabeled_split all_images 0 split_name w =
    Raises ZeroDivisionError
      {| heap := <[copy_loc w:=(shuffled l (seed 42)).1]> (heap w);
         random_state := (shuffled l (seed 42)).2;
         fs := fs w; stdout := stdout w |}.
Proof.
  intros Hx. unfold generate_labeled_unlabeled_split.
  unfold mbind at 1, M_bind at 1. unfold random_seed.
  unfold mbind at 1, M_bind at 1.
  unfold list_copy, mbind at 1, M_bind at 1, read. simpl. rewrite Hx.
  unfold new_list. simpl.
  unfold mbind at 1, M_bind at 1.
  erewrite random_shuffle_spec by (simpl; apply lookup_insert_eq).
  simpl. rewrite insert_insert_eq.
  unfold mbind at 1, M_bind at 1.
  unfold list_len, mbind at 1, M_bind at 1, read. simpl. rewrite lookup_insert_eq.
  done.
Qed.

(** *** The claims on the partitioner *)

(** C1. For an input list of [N] identifiers and a positive ratio [r],
    the call returns [(labeled, unlabeled)] with [|labeled| = floor(N/r)]
    and [|unlabeled| = N - floor(N/r)]; [floor(N/r)] is the integer [q]
    with [q * r <= N < (q + 1) * r]. *)
Theorem C1_split_sizes all_images ratio split_name l w :
  heap w !! all_images = Some l → 0 < ratio →
  ∃ L U w',
    split_returns all_images ratio split_name w L U w'
    ∧ Py.len L = Py.floordiv (Py.len l) ratio
    ∧ Py.len U = Py.len l - Py.floordiv (Py.len l) ratio
    ∧ Py.len L * ratio ≤ Py.len l < (Py.len L + 1) * ratio.
Proof.
  intros Hx Hr.
  destruct (split_returns_values all_images ratio split_name l w Hx) as (w' & Hs & _);
    [lia|].
  exists (labeled_of l ratio), (unlabeled_of l ratio), w'.
  split; [done|]. rewrite labeled_of_len, unlabeled_of_len by done.
  split; [done|]. split; [done|].
  unfold Py.floordiv.
  pose proof (Z.mul_div_le (Py.len l) ratio Hr).
  pose proof (Z.mul_succ_div_gt (Py.len l) ratio Hr). lia.
Qed.



(** C6 (amended). Whatever the ratio, the call returns or raises, and in
    the world it leaves every list that existed before, the input list
    among them, has its contents unchanged, as have the file system and
    the output; the module-level generator of [random] has been seeded
    with 42 and advanced by the draws of the shuffle. *)
Theorem C6_split_frame all_images ratio split_name l w :
  heap w !! all_images = Some l →
  match generate_labeled_unlabeled_split all_images ratio split_name w with
  | Returns _ w' | Raises _ w' =>
      heap w ⊆ heap w'
      ∧ heap w' !! all_images = Some l
      ∧ fs w' = fs w ∧ stdout w' = stdout w
      ∧ random_state w' = (shuffled l (seed 42)).2
  | Stuck => False
  end.
Proof.
  intros Hx. destruct (decide (ratio = 0)) as [->|Hr].
  - rewrite (generate_labeled_unlabeled_split_zero _ _ l) by done. simpl.
    assert (heap w ⊆ <[copy_loc w:=(shuffled l (seed 42)).1]> (heap w)) as Hsub.
    { apply insert_subseteq, fresh_loc_None. }
    split; [done|]. split; [by eapply lookup_weaken|done].
  - rewrite (generate_labeled_unlabeled_split_run _ _ _ l) by done. simpl.
    pose proof (split_heap_extends w l ratio) as Hsub.
    split; [done|]. split; [by eapply lookup_weaken|done].
Qed.

(** C9. For two ratios [0 < r1 <= r2] and the same input contents, the
    [labeled] list for [r2] is a prefix of the [labeled] list for [r1],
    from whatever worlds the two calls are made: every identifier labeled
    for [r2] is labeled for [r1]. *)
Theorem C9_nested_labeled x1 x2 r1 r2 name1 name2 l w1 w2 :
  heap w1 !! x1 = Some l → heap w2 !! x2 = Some l → 0 < r1 ≤ r2 →
  ∃ L1 U1 w1' L2 U2 w2',
    split_returns x1 r1 name1 w1 L1 U1 w1'
    ∧ split_returns x2 r2 name2 w2 L2 U2 w2'
    ∧ L2 `prefix_of` L1
    ∧ ∀ id, id ∈ L2 → id ∈ L1.
Proof.
  intros Hx1 Hx2 [Hr1 Hr12].
  destruct (split_returns_values x1 r1 name1 l w1 Hx1) as (w1' & Hs1 & _); [lia|].
  destruct (split_returns_values x2 r2 name2 l w2 Hx2) as (w2' & Hs2 & _); [lia|].
  exists (labeled_of l r1), (unlabeled_of l r1), w1',
         (labeled_of l r2), (unlabeled_of l r2), w2'.
  split; [done|]. split; [done|].
  assert (labeled_of l r2 `prefix_of` labeled_of l r1) as Hpre.
  { rewrite !labeled_of_take by lia.
    pose proof (len_nonneg l) as HN. unfold Py.floordiv.
    assert (Py.len l `div` r2 ≤ Py.len l `div` r1) as Hle.
    { apply Z.div_le_compat_l; lia. }
    assert (0 ≤ Py.len l `div` r2) by (apply Z.div_pos; lia).
    set (sh := (shuffled l (seed 42)).1).
    replace (take (Z.to_nat (Py.len l `div` r2)) sh)
      with (take (Z.to_nat (Py.len l `div` r2)) (take (Z.to_nat (Py.len l `div` r1)) sh)).
    - apply prefix_take.
    - rewrite take_take. f_equal. lia. }
  split; [done|]. intros id Hid.
  destruct Hpre as [k ->]. apply elem_of_app. by left.
Qed.

(** *** The enumerator *)

Lemma string_app_assoc (a b c : string) : (a +:+ b) +:+ c = a +:+ (b +:+ c).
Proof.
  induction a as [|x a IH]; [done|].
  change (String x ((a +:+ b) +:+ c) = String x (a +:+ (b +:+ c))). by rewrite IH.
Qed.

Lemma child_name_spec d p name :
  child_name d p = Some name
  ↔ p = path_join d name ∧ Py.has_slash name = false ∧ name ≠ "".
Proof.
  unfold child_name, path_join.
  destruct (Py.strip_prefix (d +:+ "/") p) as [r|] eqn:E.
  - apply strip_prefix_spec in E. rewrite string_app_assoc in E. subst p.
    destruct (Py.has_slash r) eqn:Hs; simpl.
    + split; [done|]. intros (Heq & Hn & _).
      apply (inj (String.app d)), (inj (String.app "/")) in Heq. congruence.
    + case_bool_decide as Hr; simpl.
      * split; [done|]. intros (Heq & _ & Hn).
        apply (inj (String.app d)), (inj (String.app "/")) in Heq. congruence.
      * split; [by intros [= ->]|]. intros (Heq & _).
        apply (inj (String.app d)), (inj (String.app "/")) in Heq. congruence.
  - split; [done|]. intros (-> & _).
    rewrite <- string_app_assoc in E.
    by rewrite (proj2 (strip_prefix_spec _ _ name)) in E.
Qed.

(** The entries of [d] are the names [name] without ["/"] such that
    [d/name] is a path of the file system. *)
Lemma elem_of_listdir f d name :
  name ∈ listdir f d
  ↔ is_Some (f !! path_join d name) ∧ Py.has_slash name = false ∧ name ≠ "".
Proof.
  unfold listdir. rewrite list_elem_of_omap. split.
  - intros ([p n] & Hin & Hc). simpl in Hc. apply child_name_spec in Hc as (-> & ? & ?).
    apply elem_of_map_to_list in Hin. eauto.
  - intros ([n Hn] & ? & ?). exists (path_join d name, n). split.
    + by apply elem_of_map_to_list.
    + simpl. by apply child_name_spec.
Qed.

Lemma NoDup_listdir f d : NoDup (listdir f d).
Proof.
  unfold listdir. pose proof (NoDup_fst_map_to_list f) as Hnd.
  induction (map_to_list f) as [|[p n] es IH]; csimpl; [constructor|].
  apply NoDup_cons in Hnd as [Hp Hnd]. specialize (IH Hnd).
  destruct (child_name d p) as [name|] eqn:E; [|done].
  constructor; [|done]. rewrite list_elem_of_omap. intros ([p' n'] & Hin & Hc).
  simpl in Hc. apply child_name_spec in E as (-> & _), Hc as (-> & _).
  apply Hp. apply list_elem_of_fmap. by exists (path_join d name, n').
Qed.

Lemma sorted_Sorted l : Sorted String.le (Py.sorted l).
Proof. apply (Sorted_merge_sort String.le). Qed.

Lemma sorted_Permutation l : Py.sorted l ≡ₚ l.
Proof. apply merge_sort_Permutation. Qed.

(** Sorting forgets the order of its argument. *)
Lemma sorted_perm_eq l k : l ≡ₚ k → Py.sorted l = Py.sorted k.
Proof.
  intros Hp. apply (Sorted_unique String.le); [apply sorted_Sorted..|].
  by rewrite !sorted_Permutation.
Qed.

Lemma image_files_Sorted f base split : Sorted String.le (image_files f base split).
Proof.
  unfold image_files. destruct (f !! _) as [[|?]|]; try constructor.
  apply sorted_Sorted.
Qed.

Lemma image_files_NoDup f base split : NoDup (image_files f base split).
Proof.
  unfold image_files. destruct (f !! _) as [[|?]|]; try constructor.
  rewrite sorted_Permutation. apply NoDup_filter, NoDup_listdir.
Qed.

Lemma elem_of_image_files f base split name :
  name ∈ image_files f base split
  ↔ f !! path_join (path_join base split) "image" = Some Dir
    ∧ is_Some (f !! path_join (path_join (path_join base split) "image") name)
    ∧ Py.has_slash name = false
    ∧ (∃ stem, name = stem +:+ ".tif").
Proof.
  unfold image_files. cbv zeta.
  set (d := path_join (path_join base split) "image").
  destruct (f !! d) as [[|?]|] eqn:E.
  - rewrite sorted_Permutation, list_elem_of_filter, elem_of_listdir.
    rewrite Is_true_true, endswith_spec. split.
    + intros (Hstem & ? & ? & _). done.
    + intros (_ & ? & ? & [stem ->]). split; [by exists stem|].
      split; [done|]. split; [done|]. by destruct stem.
  - rewrite elem_of_nil. split; [done|]. by intros ([=] & _).
  - rewrite elem_of_nil. split; [done|]. by intros ([=] & _).
Qed.

(** [get_image_files] returns a new list holding [image_files]; it
    prints the warning exactly when the directory does not exist. *)
Lemma get_image_files_run base split w :
  get_image_files base split w =
    Returns (fresh (dom (heap w)))
      (set_heap (<[fresh (dom (heap w)):=image_files (fs w) base split]> (heap w))
         (match fs w !! path_join (path_join base split) "image" with
          | Some _ => w
          | None =>
              set_stdout
                (stdout w
                 ++ ["Warning: " +:+ path_join (path_join base split) "image"
                     +:+ " does not exist"]) w
          end)).
Proof.
  unfold get_image_files, image_files. cbv zeta.
  set (d := path_join (path_join base split) "image").
  unfold mbind at 1, M_bind at 1, path_exists.
  destruct (fs w !! d) as [n|] eqn:E.
  - rewrite bool_decide_eq_true_2 by eauto. simpl.
    unfold mbind, M_bind, glob_names, new_list. rewrite E.
    by destruct n.
  - rewrite bool_decide_eq_false_2 by (by intros [??]). simpl.
    unfold mbind, M_bind, print, new_list. done.
Qed.


(** *** The formatter *)

(** C8. [create_split_line] is a function of the identifier and the
    partition: the line is [<partition>/image/<identifier>], one space,
    [<partition>/label/<identifier>], the identifier being copied as it
    is, so that the line has one space more than twice those of its
    arguments; ["tile_007.tif"] in ["Train"] gives
    ["Train/image/tile_007.tif Train/label/tile_007.tif"]. *)
Theorem C8_create_split_line image_name split :
  create_split_line image_name split
    = (split +:+ "/image/" +:+ image_name) +:+ " " +:+ (split +:+ "/label/" +:+ image_name)
  ∧ Py.count_spaces (create_split_line image_name split)
    = (2 * Py.count_spaces split + 2 * Py.count_spaces image_name + 1)%nat
  ∧ Py.endswith image_name (create_split_line image_name split) = true
  ∧ create_split_line "tile_007.tif" "Train"
    = "Train/image/tile_007.tif Train/label/tile_007.tif".
Proof.
  split; [|split; [|split; [|reflexivity]]].
  - unfold create_split_line. by rewrite !string_app_assoc.
  - unfold create_split_line. rewrite !count_spaces_app. simpl. lia.
  - apply endswith_spec. unfold create_split_line.
    exists (split +:+ "/image/" +:+ image_name +:+ " " +:+ split +:+ "/label/").
    by rewrite !string_app_assoc.
Qed.

(** *** The small variants *)




(** *** The driver *)

Lemma set_fs_id w : set_fs (fs w) w = w.
Proof. by destruct w. Qed.

Lemma mkdir_run p w : mkdir p w = Returns () (set_fs (fs_mkdir p (fs w)) w).
Proof.
  unfold mkdir, fs_mkdir. destruct (fs w !! p); [by rewrite set_fs_id|done].
Qed.

Lemma mkdir_parents_run p w :
  mkdir_parents p w =
    Returns () (set_fs (foldl (λ f d, fs_mkdir d f) (fs w) (parents p ++ [p])) w).
Proof.
  unfold mkdir_parents. generalize (parents p) as ds. intros ds. revert w.
  induction ds as [|d ds IH]; intros w; simpl.
  - apply mkdir_run.
  - unfold mbind, M_bind. rewrite mkdir_run, IH. by destruct w.
Qed.

Lemma write_split_file_run path x split l w :
  heap w !! x = Some l →
  write_split_file path x split w =
    Returns () (set_fs (fs_write path (manifest l split) (fs w)) w).
Proof. intros Hx. unfold write_split_file, mbind, M_bind, read. by rewrite Hx. Qed.

Lemma get_image_files_returns base split w :
  returns (get_image_files base split) w (λ x w',
    heap w ⊆ heap w' ∧ heap w' !! x = Some (image_files (fs w) base split)
    ∧ fs w' = fs w).
Proof.
  eapply returns_intro; [apply get_image_files_run|]. simpl.
  split; [apply insert_subseteq, fresh_loc_None|].
  split; [apply lookup_insert_eq|]. by destruct (fs w !! _).
Qed.

Lemma ratio_split_returns out train ratio name T w :
  heap w !! train = Some T → ratio ≠ 0 →
  returns (ratio_split out train ratio name) w (λ r w',
    heap w ⊆ heap w'
    ∧ heap w' !! r.1 = Some (labeled_of T ratio)
    ∧ heap w' !! r.2 = Some (unlabeled_of T ratio)
    ∧ fs w' = split_files (path_join out name)
                (labeled_of T ratio) (unlabeled_of T ratio) (fs w)).
Proof.
  intros Hx Hr. unfold ratio_split.
  apply returns_bind. eapply returns_intro;
    [by apply (generate_labeled_unlabeled_split_run _ _ _ T)|].
  cbv beta iota.
  apply returns_bind. eapply returns_intro; [apply mkdir_run|].
  apply returns_bind. eapply returns_intro;
    [apply write_split_file_run; simpl; apply split_heap_labeled|].
  apply returns_bind. eapply returns_intro;
    [apply write_split_file_run; simpl; apply split_heap_unlabeled|].
  apply returns_ret. simpl.
  split; [apply split_heap_extends|].
  split; [apply split_heap_labeled|].
  split; [apply split_heap_unlabeled|done].
Qed.

Lemma small_slice_run x l w :
  heap w !! x = Some l →
  small_slice x w =
    Returns (fresh (dom (heap w)))
      (set_heap (<[fresh (dom (heap w)):=small_of l]> (heap w)) w).
Proof. intros Hx. unfold small_slice, mbind, M_bind, read. by rewrite Hx. Qed.

Lemma small_split_returns out labeled unlabeled name L U w :
  heap w !! labeled = Some L → heap w !! unlabeled = Some U →
  returns (small_split out labeled unlabeled name) w (λ _ w',
    heap w ⊆ heap w'
    ∧ fs w' = split_files (path_join out name) (small_of L) (small_of U) (fs w)).
Proof.
  intros HL HU. unfold small_split.
  set (a := fresh (dom (heap w))).
  assert (heap w !! a = None) as Ha by apply fresh_loc_None.
  apply returns_bind. eapply returns_intro; [by apply small_slice_run|].
  fold a.
  set (b := fresh (dom (<[a:=small_of L]> (heap w)))).
  assert (<[a:=small_of L]> (heap w) !! b = None) as Hb.
  { apply not_elem_of_dom, is_fresh. }
  assert (b ≠ a) as Hab.
  { intros Heq. apply (f_equal (λ y, <[a:=small_of L]> (heap w) !! y)) in Heq.
    simpl in Heq. by rewrite Hb, lookup_insert_eq in Heq. }
  apply returns_bind. eapply returns_intro.
  { apply small_slice_run. simpl. rewrite lookup_insert_ne by congruence. done. }
  simpl. fold b.
  apply returns_bind. eapply returns_intro; [apply mkdir_run|].
  apply returns_bind. eapply returns_intro.
  { apply write_split_file_run. simpl.
    rewrite lookup_insert_ne by done. apply lookup_insert_eq. }
  eapply returns_intro.
  { apply write_split_file_run. simpl. apply lookup_insert_eq. }
  simpl. split; [|done].
  etrans; [by apply (insert_subseteq _ a (small_of L))|].
  by apply insert_subseteq.
Qed.

Ltac step_with lem :=
  apply returns_bind; eapply returns_mono; [eapply lem|]; cbv beta.

(** [heap w ⊆ heap w'] along a chain of hypotheses, and lookups along it. *)
Ltac heap_chain :=
  simpl; repeat first [eassumption | reflexivity | etrans; [eassumption|]].
Ltac heap_lookup := eapply (lookup_weaken (M:=gmap loc)); [eassumption|heap_chain].

(** [main] returns and leaves the files [main_files]; the lists that
    existed before are unchanged. *)
Lemma main_returns w :
  returns main w (λ _ w', heap w ⊆ heap w' ∧ fs w' = main_files (fs w)).
Proof.
  unfold main.
  apply returns_bind. eapply returns_intro; [apply mkdir_parents_run|].
  set (w0 := set_fs _ w).
  assert (heap w ⊆ heap w0) as H0 by reflexivity.
  assert (fs w0 = foldl (λ f d, fs_mkdir d f) (fs w) (parents output_dir ++ [output_dir]))
    as F0 by reflexivity.
  clearbody w0.
  step_with get_image_files_returns. intros train w1 (S1 & Htrain & F1).
  step_with get_image_files_returns. intros val w2 (S2 & Hval & F2).
  step_with get_image_files_returns. intros test w3 (S3 & Htest & F3).
  rewrite F1 in Hval. rewrite F2, F1 in Htest.
  remember (image_files (fs w0) base_dir "Train") as T eqn:HT.
  apply returns_bind. eapply returns_intro.
  { apply write_split_file_run. heap_lookup. }
  apply returns_bind. eapply returns_intro.
  { apply write_split_file_run. simpl. eassumption. }
  apply returns_bind. eapply returns_intro; [apply mkdir_run|].
  apply returns_bind. eapply returns_intro.
  { apply write_split_file_run. simpl. heap_lookup. }
  set (w4 := set_fs _ _).
  assert (heap w3 ⊆ heap w4) as S4 by reflexivity.
  assert (fs w4 = fs_write (path_join (path_join output_dir "all") "labeled.txt")
            (manifest T "Train")
            (fs_mkdir (path_join output_dir "all")
               (fs_write (path_join output_dir "test.txt")
                  (manifest (image_files (fs w0) base_dir "Test") "Test")
                  (fs_write (path_join output_dir "val.txt")
                     (manifest (image_files (fs w0) base_dir "Val") "Val") (fs w0)))))
    as F4.
  { simpl. by rewrite F3, F2, F1. }
  clearbody w4.
  step_with (ratio_split_returns output_dir train 32 "1_32" T);
    [heap_lookup|discriminate|].
  intros [l32 u32] w5 (S5 & HL32 & HU32 & F5). simpl in HL32, HU32.
  step_with (ratio_split_returns output_dir train 64 "1_64" T);
    [heap_lookup|discriminate|].
  intros [l64 u64] w6 (S6 & HL64 & HU64 & F6). simpl in HL64, HU64.
  step_with (ratio_split_returns output_dir train 16 "1_16" T);
    [heap_lookup|discriminate|].
  intros [l16 u16] w7 (S7 & _ & _ & F7).
  step_with (ratio_split_returns output_dir train 8 "1_8" T);
    [heap_lookup|discriminate|].
  intros [l8 u8] w8 (S8 & _ & _ & F8).
  step_with (ratio_split_returns output_dir train 4 "1_4" T);
    [heap_lookup|discriminate|].
  intros [l4 u4] w9 (S9 & _ & _ & F9).
  step_with (small_split_returns output_dir l32 u32 "small_1_32");
    [clear HL64 HU64; heap_lookup..|].
  intros [] w10 (S10 & F10).
  eapply returns_mono.
  { eapply (small_split_returns output_dir l64 u64 "small_1_64");
      clear HL32 HU32; heap_lookup. }
  cbv beta. intros [] w11 (S11 & F11). split.
  - heap_chain.
  - rewrite F11, F10, F9, F8, F7, F6, F5, F4, HT. unfold main_files.
    by rewrite F0.
Qed.

(** *** The files of the driver *)

Lemma fs_write_lookup_eq p t (f : gmap string node) :
  fs_write p t f !! p = Some (File t).
Proof. apply lookup_insert_eq. Qed.

Lemma fs_write_lookup_ne p q t (f : gmap string node) :
  p ≠ q → fs_write p t f !! q = f !! q.
Proof. apply lookup_insert_ne. Qed.

Lemma fs_mkdir_lookup_ne p q (f : gmap string node) :
  p ≠ q → fs_mkdir p f !! q = f !! q.
Proof.
  intros Hne. unfold fs_mkdir. destruct (f !! p); [done|by apply lookup_insert_ne].
Qed.

(** A directory made elsewhere does not change an enumeration. *)
Lemma image_files_mkdir p f base split :
  child_name (path_join (path_join base split) "image") p = None →
  p ≠ path_join (path_join base split) "image" →
  image_files (fs_mkdir p f) base split = image_files f base split.
Proof.
  intros Hc Hne. unfold image_files, fs_mkdir. cbv zeta.
  destruct (f !! p) eqn:Hp; [done|].
  rewrite lookup_insert_ne by done.
  destruct (f !! path_join (path_join base split) "image") as [[|?]|]; try done.
  apply sorted_perm_eq. apply filter_Permutation. unfold listdir.
  rewrite map_to_list_insert by done. csimpl. by rewrite Hc.
Qed.

Ltac path_ne := let H := fresh in intros H; vm_compute in H; discriminate H.

Lemma image_files_output_dir f split :
  split ∈ ["Train"; "Val"; "Test"] →
  image_files (foldl (λ f d, fs_mkdir d f) f (parents output_dir ++ [output_dir]))
    base_dir split
  = image_files f base_dir split.
Proof.
  intros Hs.
  change (parents output_dir ++ [output_dir])
    with ["UniMatch-V2"; "UniMatch-V2/splits"; "UniMatch-V2/splits/gf7-building"].
  simpl.
  repeat (apply elem_of_cons in Hs as [->|Hs]);
    [..|by apply elem_of_nil in Hs];
    by rewrite !image_files_mkdir by (first [reflexivity|path_ne]).
Qed.

Lemma path_join_inj d a b : path_join d a = path_join d b → a = b.
Proof.
  unfold path_join. intros Heq.
  by apply (inj (String.app d)), (inj (String.app "/")) in Heq.
Qed.

Lemma split_files_labeled dir L U f :
  split_files dir L U f !! path_join dir "labeled.txt"
  = Some (File (manifest L "Train")).
Proof.
  unfold split_files. rewrite fs_write_lookup_ne; [apply fs_write_lookup_eq|].
  intros Heq. by apply path_join_inj in Heq.
Qed.

Lemma split_files_unlabeled dir L U f :
  split_files dir L U f !! path_join dir "unlabeled.txt"
  = Some (File (manifest U "Train")).
Proof. apply fs_write_lookup_eq. Qed.

Lemma split_files_other dir L U f p :
  path_join dir "unlabeled.txt" ≠ p → path_join dir "labeled.txt" ≠ p → dir ≠ p →
  split_files dir L U f !! p = f !! p.
Proof.
  intros. unfold split_files.
  by rewrite !fs_write_lookup_ne, fs_mkdir_lookup_ne.
Qed.

(** Every path outside [main_paths] is as it was. *)
Lemma main_files_other f p : p ∉ main_paths → main_files f !! p = f !! p.
Proof.
  intros Hp. unfold main_files. cbv zeta.
  change (parents output_dir ++ [output_dir])
    with ["UniMatch-V2"; "UniMatch-V2/splits"; "UniMatch-V2/splits/gf7-building"].
  change main_paths with
    (["UniMatch-V2"; "UniMatch-V2/splits"; "UniMatch-V2/splits/gf7-building";
      path_join output_dir "val.txt"; path_join output_dir "test.txt";
      path_join output_dir "all";
      path_join (path_join output_dir "all") "labeled.txt"]
     ++ split_paths "1_32" ++ split_paths "1_64" ++ split_paths "1_16"
     ++ split_paths "1_8" ++ split_paths "1_4"
     ++ split_paths "small_1_32" ++ split_paths "small_1_64") in Hp.
  unfold split_paths in Hp. cbv zeta in Hp. simpl app in Hp.
  repeat (apply not_elem_of_cons in Hp as [? Hp]).
  rewrite !split_files_other by congruence.
  rewrite fs_write_lookup_ne, fs_mkdir_lookup_ne, !fs_write_lookup_ne by congruence.
  simpl. by rewrite !fs_mkdir_lookup_ne by congruence.
Qed.

Ltac file_lookup :=
  repeat first
    [ rewrite split_files_labeled
    | rewrite split_files_unlabeled
    | rewrite fs_write_lookup_eq
    | rewrite split_files_other by path_ne
    | rewrite fs_write_lookup_ne by path_ne
    | rewrite fs_mkdir_lookup_ne by path_ne ].

(** After [main] every manifest holds the text computed from the three
    enumerations of the file system [main] started from. *)
Lemma main_files_manifests f :
  Forall (λ pt, main_files f !! pt.1 = Some (File pt.2))
    (main_manifests (image_files f base_dir "Train")
       (image_files f base_dir "Val") (image_files f base_dir "Test")).
Proof.
  unfold main_files. cbv zeta.
  rewrite !image_files_output_dir by (repeat constructor).
  generalize (image_files f base_dir "Train") as train.
  generalize (image_files f base_dir "Val") as val.
  generalize (image_files f base_dir "Test") as test.
  intros test val train.
  generalize (foldl (λ f d, fs_mkdir d f) f (parents output_dir ++ [output_dir])) as f1.
  intros f1. unfold main_manifests, split_manifests. cbv zeta. simpl app.
  repeat apply Forall_cons_2; [..|apply Forall_nil_2]; cbn [fst snd];
    file_lookup; reflexivity.
Qed.


(** *** The claims on the driver *)




(** *** More on the partitioner: bad ratios, new objects, the order *)

Lemma cut_negative l ratio :
  ratio < 0 →
  - Py.len l ≤ Py.floordiv (Py.len l) ratio ≤ 0
  ∧ Py.len l ≤ - Py.floordiv (Py.len l) ratio * - ratio < Py.len l - ratio.
Proof.
  intros Hr. unfold Py.floordiv. pose proof (len_nonneg l) as HN.
  pose proof (Z.div_mod (Py.len l) ratio) as Hdm.
  pose proof (Z.mod_neg_bound (Py.len l) ratio Hr) as Hm.
  assert (Py.len l `div` ratio ≤ 0) by nia.
  split; [|nia]. split; [nia|done].
Qed.

Lemma clamp_from_end {A} (l : list A) k :
  (k < 0 ∧ - Py.len l ≤ k) ∨ (k = 0 ∧ Py.len l = 0) →
  Py.clamp l k = Z.to_nat (Py.len l + k).
Proof.
  unfold Py.clamp. intros [[Hk Hl]|[-> Hl]].
  - destruct (k <? 0) eqn:E; [|apply Z.ltb_ge in E; lia]. f_equal. lia.
  - simpl. f_equal. lia.
Qed.

Lemma cut_negative_clamp l ratio :
  ratio < 0 →
  Py.clamp (shuffled l (seed 42)).1 (Py.floordiv (Py.len (shuffled l (seed 42)).1) ratio)
  = Z.to_nat (Py.len l + Py.floordiv (Py.len l) ratio).
Proof.
  intros Hr. rewrite clamp_from_end; rewrite shuffled_len; [done|].
  pose proof (cut_negative l ratio Hr) as [[H1 H2] [H3 H4]].
  pose proof (len_nonneg l).
  destruct (decide (Py.floordiv (Py.len l) ratio = 0)) as [H0|H0]; [right|left; lia].
  split; [done|]. rewrite H0 in H3. lia.
Qed.

(** X1. The call raises exactly when [ratio = 0], and then it is
    [ZeroDivisionError], raised after the generator has been seeded and the
    copy shuffled: the input list is as before, one new list (the shuffled
    copy) is left behind. No draw of the shuffle is out of range, so
    [IndexError] is never raised, and the call is never stuck. *)
Theorem X1_split_raises_iff_zero all_images ratio split_name l w :
  heap w !! all_images = Some l →
  match generate_labeled_unlabeled_split all_images ratio split_name w with
  | Returns _ _ => ratio ≠ 0
  | Raises e w' =>
      e = ZeroDivisionError ∧ ratio = 0
      ∧ heap w' !! all_images = Some l
      ∧ random_state w' = (shuffled l (seed 42)).2
      ∧ ∃ copy, heap w !! copy = None
                ∧ heap w' = <[copy:=(shuffled l (seed 42)).1]> (heap w)
  | Stuck => False
  end.
Proof.
  intros Hx. destruct (decide (ratio = 0)) as [->|Hr].
  - rewrite (generate_labeled_unlabeled_split_zero _ _ l) by done. simpl.
    split; [done|]. split; [done|].
    split; [eapply (lookup_weaken (M:=gmap loc)); [exact Hx|];
            apply insert_subseteq, fresh_loc_None|].
    split; [done|]. exists (copy_loc w). split; [apply fresh_loc_None|done].
  - by rewrite (generate_labeled_unlabeled_split_run _ _ _ l) by done.
Qed.

(** X2. A negative ratio is not rejected: the call returns, the cut being
    counted from the end of the shuffled list. [unlabeled] then holds
    [ceil(N / |ratio|)] identifiers and [labeled] the other ones; for
    [ratio = -1] nothing is labeled. *)
Theorem X2_split_negative_ratio all_images ratio split_name l w :
  heap w !! all_images = Some l → ratio < 0 →
  ∃ L U w',
    split_returns all_images ratio split_name w L U w'
    ∧ Py.len L + Py.len U = Py.len l
    ∧ Py.len l ≤ Py.len U * - ratio < Py.len l - ratio
    ∧ (ratio = -1 → L = [] ∧ U ≡ₚ l).
Proof.
  intros Hx Hr.
  destruct (split_returns_values all_images ratio split_name l w Hx) as (w' & Hs & _);
    [lia|].
  exists (labeled_of l ratio), (unlabeled_of l ratio), w'.
  split; [done|].
  pose proof (cut_negative l ratio Hr) as [[H1 H2] [H3 H4]].
  pose proof (len_nonneg l) as HN.
  assert (Py.len (labeled_of l ratio) = Py.len l + Py.floordiv (Py.len l) ratio) as HL.
  { unfold labeled_of, Py.slice_to. cbv zeta. rewrite cut_negative_clamp by done.
    unfold Py.len in *. rewrite length_take, shuffled_length. lia. }
  assert (Py.len (unlabeled_of l ratio) = - Py.floordiv (Py.len l) ratio) as HU.
  { unfold unlabeled_of, Py.slice_from. cbv zeta. rewrite cut_negative_clamp by done.
    unfold Py.len in *. rewrite length_drop, shuffled_length. lia. }
  split; [lia|]. split; [by rewrite HU|].
  intros ->.
  assert (labeled_of l (-1) = []) as HL0.
  { assert (Py.len (labeled_of l (-1)) = 0) as H0 by lia.
    destruct (labeled_of l (-1)); [done|]. unfold Py.len in H0. simpl in H0. lia. }
  split; [done|].
  pose proof (labeled_unlabeled_app l (-1)) as Happ. rewrite HL0 in Happ.
  simpl in Happ. rewrite Happ. apply shuffled_Permutation.
Qed.

(** X3. The two lists returned are new objects: they are not the input
    list nor any list that existed before the call, and they are not the
    same object, so that changing one later changes no other list. The
    call allocates three lists in all (the shuffled copy is the third). *)
Theorem X3_split_result_fresh all_images ratio split_name l w :
  heap w !! all_images = Some l → ratio ≠ 0 →
  ∃ labeled unlabeled w',
    generate_labeled_unlabeled_split all_images ratio split_name w
      = Returns (labeled, unlabeled) w'
    ∧ heap w !! labeled = None ∧ heap w !! unlabeled = None
    ∧ labeled ≠ unlabeled ∧ labeled ≠ all_images ∧ unlabeled ≠ all_images
    ∧ size (heap w') = (size (heap w) + 3)%nat.
Proof.
  intros Hx Hr. eexists _, _, _.
  split; [by apply (generate_labeled_unlabeled_split_run _ _ _ l)|].
  set (sh := (shuffled l (seed 42)).1).
  pose proof (is_fresh (dom (heap w))) as Ha.
  pose proof (is_fresh (dom (<[copy_loc w:=sh]> (heap w)))) as Hb.
  pose proof (is_fresh (dom (<[labeled_loc w sh:=labeled_of l ratio]>
                               (<[copy_loc w:=sh]> (heap w))))) as Hc.
  fold (copy_loc w) in Ha. fold (labeled_loc w sh) in Hb.
  fold (unlabeled_loc w sh (labeled_of l ratio)) in Hc.
  rewrite !dom_insert_L in Hb, Hc.
  assert (heap w !! labeled_loc w sh = None) as Hb' by (apply not_elem_of_dom; set_solver).
  assert (heap w !! unlabeled_loc w sh (labeled_of l ratio) = None) as Hc'
    by (apply not_elem_of_dom; set_solver).
  split; [done|]. split; [done|].
  split; [set_solver|]. split; [congruence|]. split; [congruence|].
  simpl. unfold split_heap. cbv zeta. fold sh.
  rewrite !map_size_insert_None; [lia|..].
  - by apply not_elem_of_dom.
  - apply not_elem_of_dom. rewrite dom_insert_L. set_solver.
  - apply not_elem_of_dom. rewrite !dom_insert_L. set_solver.
Qed.

(** X4. The ratio moves the cut and nothing else: for the same input
    contents and any two non-zero ratios, [labeled] followed by
    [unlabeled] is the same list, in the same order; and for
    [0 < r1 <= r2] the [unlabeled] list for [r1] is the end of the
    [unlabeled] list for [r2]. *)
Theorem X4_split_same_order x1 x2 r1 r2 name1 name2 l w1 w2 :
  heap w1 !! x1 = Some l → heap w2 !! x2 = Some l → r1 ≠ 0 → r2 ≠ 0 →
  ∃ L1 U1 w1' L2 U2 w2',
    split_returns x1 r1 name1 w1 L1 U1 w1'
    ∧ split_returns x2 r2 name2 w2 L2 U2 w2'
    ∧ L1 ++ U1 = L2 ++ U2
    ∧ (0 < r1 ≤ r2 → U1 `suffix_of` U2).
Proof.
  intros Hx1 Hx2 Hr1 Hr2.
  destruct (split_returns_values x1 r1 name1 l w1 Hx1 Hr1) as (w1' & Hs1 & _).
  destruct (split_returns_values x2 r2 name2 l w2 Hx2 Hr2) as (w2' & Hs2 & _).
  exists (labeled_of l r1), (unlabeled_of l r1), w1',
         (labeled_of l r2), (unlabeled_of l r2), w2'.
  split; [done|]. split; [done|].
  split; [by rewrite !labeled_unlabeled_app|].
  intros [Hpos Hle]. rewrite !unlabeled_of_drop by lia.
  pose proof (len_nonneg l) as HN. unfold Py.floordiv.
  assert (Py.len l `div` r2 ≤ Py.len l `div` r1) as Hdiv.
  { apply Z.div_le_compat_l; lia. }
  assert (0 ≤ Py.len l `div` r2) by (apply Z.div_pos; lia).
  set (sh := (shuffled l (seed 42)).1).
  replace (drop (Z.to_nat (Py.len l `div` r1)) sh)
    with (drop (Z.to_nat (Py.len l `div` r1 - Py.len l `div` r2))
            (drop (Z.to_nat (Py.len l `div` r2)) sh)).
  - apply suffix_drop.
  - rewrite drop_drop. f_equal. lia.
Qed.

(** *** More on the formatter and the manifests *)

Lemma string_length_app (a b : string) :
  String.length (a +:+ b) = (String.length a + String.length b)%nat.
Proof.
  induction a as [|c a IH]; [done|].
  change (S (String.length (a +:+ b)) = S (String.length a + String.length b)).
  by rewrite IH.
Qed.

Lemma string_app_eq_length (a b c d : string) :
  a +:+ b = c +:+ d → String.length a = String.length c → a = c ∧ b = d.
Proof.
  revert c. induction a as [|x a IH]; intros [|y c] Heq Hlen; try discriminate.
  - done.
  - change (String x (a +:+ b) = String y (c +:+ d)) in Heq.
    injection Heq as -> Heq. injection Hlen as Hlen.
    destruct (IH c Heq Hlen) as [-> ->]. done.
Qed.

Lemma count_char_app c (a b : string) :
  Py.count_char c (a +:+ b) = (Py.count_char c a + Py.count_char c b)%nat.
Proof.
  induction a as [|x a IH]; [done|].
  change (Py.count_char c (String x a +:+ b))
    with ((if bool_decide (x = c) then 1 else 0) + Py.count_char c (a +:+ b))%nat.
  rewrite IH. simpl. lia.
Qed.

Lemma create_split_line_inj split n1 n2 :
  create_split_line n1 split = create_split_line n2 split → n1 = n2.
Proof.
  unfold create_split_line. intros Heq.
  apply (inj (String.app split)), (inj (String.app "/image/")) in Heq.
  assert (String.length n1 = String.length n2) as Hlen.
  { apply (f_equal String.length) in Heq.
    rewrite !string_length_app in Heq. lia. }
  by destruct (string_app_eq_length _ _ _ _ Heq Hlen).
Qed.

Lemma create_split_line_no_newline split name :
  Py.count_char "010" split = 0%nat → Py.count_char "010" name = 0%nat →
  Py.count_char "010" (create_split_line name split) = 0%nat.
Proof.
  intros Hs Hn. unfold create_split_line.
  rewrite !count_char_app, Hs, Hn. reflexivity.
Qed.

(** A text is cut at its first newline in one way only. *)
Lemma string_app_newline_inj (a b r1 r2 : string) :
  Py.count_char "010" a = 0%nat → Py.count_char "010" b = 0%nat →
  a +:+ newline +:+ r1 = b +:+ newline +:+ r2 → a = b ∧ r1 = r2.
Proof.
  revert b. induction a as [|x a IH]; intros [|y b] Ha Hb Heq.
  - change (String "010" r1 = String "010" r2) in Heq.
    injection Heq as Heq. by subst.
  - change ("" +:+ newline +:+ r1) with (String "010" r1) in Heq.
    change (String y b +:+ newline +:+ r2) with (String y (b +:+ newline +:+ r2)) in Heq.
    injection Heq as <- _. simpl in Hb. discriminate Hb.
  - change ("" +:+ newline +:+ r2) with (String "010" r2) in Heq.
    change (String x a +:+ newline +:+ r1) with (String x (a +:+ newline +:+ r1)) in Heq.
    injection Heq as -> _. simpl in Ha. discriminate Ha.
  - change (String x (a +:+ newline +:+ r1) = String y (b +:+ newline +:+ r2)) in Heq.
    injection Heq as -> Heq. simpl in Ha, Hb.
    destruct (IH b) as [-> ->]; [lia..|done|done].
Qed.


(** X5. For a given partition, different identifiers give different
    lines: the identifier can be read back from its line. *)
Theorem X5_create_split_line_inj split name1 name2 :
  create_split_line name1 split = create_split_line name2 split ↔ name1 = name2.
Proof. split; [apply create_split_line_inj|by intros ->]. Qed.

(** X6. When neither the partition name nor the identifiers hold a
    newline, the text of a manifest has one newline per identifier, and it
    determines the list of identifiers, order included: two lists that give
    the same text are the same list. *)
Theorem X6_manifest_inj split l1 l2 :
  Py.count_char "010" split = 0%nat →
  Forall (λ name, Py.count_char "010" name = 0%nat) l1 →
  Forall (λ name, Py.count_char "010" name = 0%nat) l2 →
  Py.count_char "010" (manifest l1 split) = length l1
  ∧ (manifest l1 split = manifest l2 split → l1 = l2).
Proof.
  intros Hs H1 H2. split.
  - clear H2 l2. induction H1 as [|n l1 Hn H1 IH]; [done|].
    cbn [manifest foldr]. fold (manifest l1 split).
    rewrite !count_char_app, create_split_line_no_newline, IH by done.
    reflexivity.
  - revert l2 H2. induction H1 as [|n1 l1 Hn1 H1 IH]; intros l2 H2 Heq.
    + destruct l2 as [|n2 l2]; [done|].
      apply (f_equal String.length) in Heq.
      cbn [manifest foldr] in Heq. rewrite !string_length_app in Heq.
      simpl in Heq. lia.
    + destruct H2 as [|n2 l2 Hn2 H2].
      * apply (f_equal String.length) in Heq.
        cbn [manifest foldr] in Heq. rewrite !string_length_app in Heq.
        simpl in Heq. lia.
      * cbn [manifest foldr] in Heq.
        fold (manifest l1 split) in Heq. fold (manifest l2 split) in Heq.
        apply string_app_newline_inj in Heq as [Hline Hrest];
          [|by apply create_split_line_no_newline..].
        apply create_split_line_inj in Hline as ->. f_equal. by apply IH.
Qed.

(** *** More on the enumerator and the driver *)

(** The enumeration looks at the directory and at the names under it,
    and at nothing else. *)
Lemma image_files_agree f1 f2 base split :
  f1 !! path_join (path_join base split) "image"
  = f2 !! path_join (path_join base split) "image" →
  (∀ name, is_Some (f1 !! path_join (path_join (path_join base split) "image") name)
           ↔ is_Some (f2 !! path_join (path_join (path_join base split) "image") name)) →
  image_files f1 base split = image_files f2 base split.
Proof.
  intros Hd Hn. apply (Sorted_unique String.le); [apply image_files_Sorted..|].
  apply NoDup_Permutation; [apply image_files_NoDup..|].
  intros name. rewrite !elem_of_image_files, Hd, Hn. done.
Qed.


Lemma main_paths_not_data rest : base_dir +:+ rest ∉ main_paths.
Proof.
  intros Hin. vm_compute in Hin.
  repeat (apply elem_of_cons in Hin as [Hin|Hin]; [discriminate Hin|]).
  by apply elem_of_nil in Hin.
Qed.

Lemma main_files_data f rest :
  main_files f !! (base_dir +:+ rest) = f !! (base_dir +:+ rest).
Proof. apply main_files_other, main_paths_not_data. Qed.

Lemma main_files_image_files f split :
  image_files (main_files f) base_dir split = image_files f base_dir split.
Proof.
  apply image_files_agree.
  - unfold path_join. rewrite !string_app_assoc. apply main_files_data.
  - intros name. unfold path_join. rewrite !string_app_assoc.
    by rewrite main_files_data.
Qed.














Lemma fs_mkdir_is_Some p (f : gmap string node) : is_Some (fs_mkdir p f !! p).
Proof.
  unfold fs_mkdir. destruct (f !! p) eqn:E; [by rewrite E|].
  rewrite lookup_insert_eq. by eexists.
Qed.

Lemma fs_mkdir_id p (f : gmap string node) : is_Some (f !! p) → fs_mkdir p f = f.
Proof. intros [n Hn]. unfold fs_mkdir. by rewrite Hn. Qed.

Lemma fs_write_id p t (f : gmap string node) :
  f !! p = Some (File t) → fs_write p t f = f.
Proof. apply insert_id. Qed.

Lemma split_files_id dir L U (f : gmap string node) :
  is_Some (f !! dir) →
  f !! path_join dir "labeled.txt" = Some (File (manifest L "Train")) →
  f !! path_join dir "unlabeled.txt" = Some (File (manifest U "Train")) →
  split_files dir L U f = f.
Proof.
  intros Hd HL HU. unfold split_files.
  rewrite (fs_mkdir_id dir f) by done.
  rewrite (fs_write_id _ _ f) by done. by apply fs_write_id.
Qed.

(** After [main] the directories of [main_dirs] exist. *)
Lemma main_files_dirs f : Forall (λ d, is_Some (main_files f !! d)) main_dirs.
Proof.
  unfold main_files. cbv zeta.
  change (parents output_dir ++ [output_dir])
    with ["UniMatch-V2"; "UniMatch-V2/splits"; "UniMatch-V2/splits/gf7-building"].
  simpl foldl.
  change main_dirs with
    ["UniMatch-V2"; "UniMatch-V2/splits"; "UniMatch-V2/splits/gf7-building";
     path_join output_dir "all";
     path_join output_dir "1_32"; path_join output_dir "1_64";
     path_join output_dir "1_16"; path_join output_dir "1_8";
     path_join output_dir "1_4"; path_join output_dir "small_1_32";
     path_join output_dir "small_1_64"].
  repeat apply Forall_cons_2; [..|apply Forall_nil_2];
    file_lookup;
    first [ apply fs_mkdir_is_Some
          | unfold split_files at 1; rewrite !fs_write_lookup_ne by path_ne;
            apply fs_mkdir_is_Some ].
Qed.

(** A second run of the file operations of [main] changes nothing. *)
Lemma main_files_idem f : main_files (main_files f) = main_files f.
Proof.
  pose proof (main_files_dirs f) as Hd.
  pose proof (main_files_manifests f) as HM.
  pose proof (main_files_image_files f) as Hi.
  remember (main_files f) as g eqn:Hg. clear Hg.
  change main_dirs with
    ["UniMatch-V2"; "UniMatch-V2/splits"; "UniMatch-V2/splits/gf7-building";
     path_join output_dir "all";
     path_join output_dir "1_32"; path_join output_dir "1_64";
     path_join output_dir "1_16"; path_join output_dir "1_8";
     path_join output_dir "1_4"; path_join output_dir "small_1_32";
     path_join output_dir "small_1_64"] in Hd.
  repeat (apply Forall_cons in Hd as [? Hd]).
  unfold main_manifests, split_manifests in HM. cbv zeta in HM. simpl app in HM.
  repeat (apply Forall_cons in HM as [? HM]). cbn [fst snd] in *.
  unfold main_files. cbv zeta.
  change (parents output_dir ++ [output_dir])
    with ["UniMatch-V2"; "UniMatch-V2/splits"; "UniMatch-V2/splits/gf7-building"].
  simpl foldl.
  rewrite (fs_mkdir_id "UniMatch-V2" g) by assumption.
  rewrite (fs_mkdir_id "UniMatch-V2/splits" g) by assumption.
  rewrite (fs_mkdir_id "UniMatch-V2/splits/gf7-building" g) by assumption.
  rewrite !Hi.
  rewrite (fs_write_id (path_join output_dir "val.txt") _ g) by assumption.
  rewrite (fs_write_id (path_join output_dir "test.txt") _ g) by assumption.
  rewrite (fs_mkdir_id (path_join output_dir "all") g) by assumption.
  rewrite (fs_write_id (path_join (path_join output_dir "all") "labeled.txt") _ g)
    by assumption.
  rewrite (split_files_id (path_join output_dir "1_32") _ _ g) by assumption.
  rewrite (split_files_id (path_join output_dir "1_64") _ _ g) by assumption.
  rewrite (split_files_id (path_join output_dir "1_16") _ _ g) by assumption.
  rewrite (split_files_id (path_join output_dir "1_8") _ _ g) by assumption.
  rewrite (split_files_id (path_join output_dir "1_4") _ _ g) by assumption.
  rewrite (split_files_id (path_join output_dir "small_1_32") _ _ g) by assumption.
  by rewrite (split_files_id (path_join output_dir "small_1_64") _ _ g) by assumption.
Qed.

(** X13. Running [main] again on the file system it has left returns and
    leaves the same file system: every directory is there already and
    every manifest is written again with the text it has. *)
Theorem X13_main_idempotent w w1 :
  main w = Returns () w1 →
  ∃ w2, main w1 = Returns () w2 ∧ fs w2 = fs w1 ∧ heap w1 ⊆ heap w2.
Proof.
  intros Hm.
  destruct (returns_elim _ _ _ (main_returns w)) as ([] & w1' & Hm' & _ & F1).
  rewrite Hm in Hm'. injection Hm' as <-.
  destruct (returns_elim _ _ _ (main_returns w1)) as ([] & w2 & Hm2 & Hsub & F2).
  exists w2. split; [done|]. split; [|done].
  by rewrite F2, F1, main_files_idem.
Qed.

End Properties.

(** ** Instances of the claims with CPython's generator *)

Lemma abcd_world_input : heap abcd_world !! 1%positive = Some abcd.
Proof. apply lookup_singleton_eq. Qed.

Lemma other_world_input : heap other_world !! 5%positive = Some abcd.
Proof. apply lookup_insert_eq. Qed.


(** The enumeration of a directory: sorted, [.tif] only, no nested file. *)
Example image_files_demo :
  image_files demo_fs "data" "Train" = ["a.tif"; "b.tif"]
  ∧ image_files demo_fs "data" "Val" = [].
Proof. split; vm_compute; reflexivity. Qed.

(** The generator is CPython's: the first words drawn after
    [random.seed(42)]. *)
Example mt19937_seed_42 :
  let (a, g) := MT19937.genrand_uint32 (seed 42) in
  let (b, g) := MT19937.genrand_uint32 g in
  let (c, _) := MT19937.genrand_uint32 g in
  [a; b; c] = [2746317213; 478163327; 107420369].
Proof. vm_compute. reflexivity. Qed.

(** The draws of [random.shuffle] on four elements after
    [random.seed(42)] are draws of CPython's loop, within its budget. *)
Example randbelow_seed_42 :
  MT19937.draws [4; 3; 2] (seed 42) = Some [0; 0; 1].
Proof. vm_compute. reflexivity. Qed.


Lemma C1_split_sizes_witness :
  heap abcd_world !! 1%positive = Some abcd ∧ 0 < 4
  ∧ ∃ L U w',
      split_returns 1%positive 4 "Train" abcd_world L U w'
      ∧ Py.len L = Py.floordiv (Py.len abcd) 4
      ∧ Py.len U = Py.len abcd - Py.floordiv (Py.len abcd) 4
      ∧ Py.len L * 4 ≤ Py.len abcd < (Py.len L + 1) * 4.
Proof.
  split; [apply abcd_world_input|]. split; [lia|].
  apply (C1_split_sizes 1%positive 4 "Train" abcd abcd_world);
    [apply abcd_world_input|lia].
Defined.





Lemma C6_split_frame_witness :
  heap abcd_world !! 1%positive = Some abcd
  ∧ match generate_labeled_unlabeled_split 1%positive 4 "Train" abcd_world with
    | Returns _ w' | Raises _ w' =>
        heap abcd_world ⊆ heap w'
        ∧ heap w' !! 1%positive = Some abcd
        ∧ fs w' = fs abcd_world ∧ stdout w' = stdout abcd_world
        ∧ random_state w' = (shuffled abcd (seed 42)).2
    | Stuck => False
    end.
Proof.
  split; [apply abcd_world_input|].
  apply (C6_split_frame 1%positive 4 "Train" abcd abcd_world), abcd_world_input.
Defined.

(** C6, as stated, fails: the call changes the state of the module-level
    generator of [random]. In a process that has called [random.seed(2024)]
    the generator is not in that state after the call. *)
Lemma C6_counterexample :
  ∃ r w',
    generate_labeled_unlabeled_split 1%positive 4 "Train" abcd_world = Returns r w'
    ∧ random_state abcd_world = seed 2024
    ∧ random_state w' ≠ random_state abcd_world.
Proof.
  eexists _, _. split; [|split; [reflexivity|]].
  - apply (generate_labeled_unlabeled_split_run _ _ _ abcd);
      [apply abcd_world_input|done].
  - intros Heq. apply (f_equal MT19937.index) in Heq.
    vm_compute in Heq. discriminate Heq.
Qed.

Lemma C9_nested_labeled_witness :
  heap abcd_world !! 1%positive = Some abcd
  ∧ heap other_world !! 5%positive = Some abcd
  ∧ 0 < 2 ≤ 4
  ∧ ∃ L1 U1 w1' L2 U2 w2',
      split_returns 1%positive 2 "Train" abcd_world L1 U1 w1'
      ∧ split_returns 5%positive 4 "Train" other_world L2 U2 w2'
      ∧ L2 `prefix_of` L1
      ∧ ∀ id, id ∈ L2 → id ∈ L1.
Proof.
  split; [apply abcd_world_input|]. split; [apply other_world_input|].
  split; [lia|].
  apply (C9_nested_labeled 1%positive 5%positive 2 4 "Train" "Train" abcd
           abcd_world other_world);
    [apply abcd_world_input|apply other_world_input|lia].
Defined.

(** ** Instances of the further properties *)

Lemma X1_split_raises_iff_zero_witness :
  heap abcd_world !! 1%positive = Some abcd
  ∧ match generate_labeled_unlabeled_split 1%positive 0 "Train" abcd_world with
    | Returns _ _ => 0 ≠ 0
    | Raises e w' =>
        e = ZeroDivisionError ∧ 0 = 0
        ∧ heap w' !! 1%positive = Some abcd
        ∧ random_state w' = (shuffled abcd (seed 42)).2
        ∧ ∃ copy, heap abcd_world !! copy = None
                  ∧ heap w' = <[copy:=(shuffled abcd (seed 42)).1]> (heap abcd_world)
    | Stuck => False
    end.
Proof.
  split; [apply abcd_world_input|].
  apply (X1_split_raises_iff_zero 1%positive 0 "Train" abcd abcd_world),
    abcd_world_input.
Defined.

Lemma X2_split_negative_ratio_witness :
  heap abcd_world !! 1%positive = Some abcd ∧ -3 < 0
  ∧ ∃ L U w',
      split_returns 1%positive (-3) "Train" abcd_world L U w'
      ∧ Py.len L + Py.len U = Py.len abcd
      ∧ Py.len abcd ≤ Py.len U * - -3 < Py.len abcd - -3
      ∧ (-3 = -1 → L = [] ∧ U ≡ₚ abcd).
Proof.
  split; [apply abcd_world_input|]. split; [lia|].
  apply (X2_split_negative_ratio 1%positive (-3) "Train" abcd abcd_world);
    [apply abcd_world_input|lia].
Defined.

Lemma X3_split_result_fresh_witness :
  heap abcd_world !! 1%positive = Some abcd ∧ 4 ≠ 0
  ∧ ∃ labeled unlabeled w',
      generate_labeled_unlabeled_split 1%positive 4 "Train" abcd_world
        = Returns (labeled, unlabeled) w'
      ∧ heap abcd_world !! labeled = None ∧ heap abcd_world !! unlabeled = None
      ∧ labeled ≠ unlabeled ∧ labeled ≠ 1%positive ∧ unlabeled ≠ 1%positive
      ∧ size (heap w') = (size (heap abcd_world) + 3)%nat.
Proof.
  split; [apply abcd_world_input|]. split; [lia|].
  apply (X3_split_result_fresh 1%positive 4 "Train" abcd abcd_world);
    [apply abcd_world_input|lia].
Defined.

Lemma X4_split_same_order_witness :
  heap abcd_world !! 1%positive = Some abcd
  ∧ heap other_world !! 5%positive = Some abcd
  ∧ 2 ≠ 0 ∧ 4 ≠ 0 ∧ 0 < 2 ≤ 4
  ∧ ∃ L1 U1 w1' L2 U2 w2',
      split_returns 1%positive 2 "Train" abcd_world L1 U1 w1'
      ∧ split_returns 5%positive 4 "Train" other_world L2 U2 w2'
      ∧ L1 ++ U1 = L2 ++ U2
      ∧ U1 `suffix_of` U2.
Proof.
  split; [apply abcd_world_input|]. split; [apply other_world_input|].
  split; [lia|]. split; [lia|]. split; [lia|].
  destruct (X4_split_same_order 1%positive 5%positive 2 4 "Train" "Train" abcd
              abcd_world other_world)
    as (L1 & U1 & w1' & L2 & U2 & w2' & H1 & H2 & H3 & H4);
    [apply abcd_world_input|apply other_world_input|lia|lia|].
  exists L1, U1, w1', L2, U2, w2'.
  split; [exact H1|]. split; [exact H2|]. split; [exact H3|]. apply H4. lia.
Defined.

Lemma X6_manifest_inj_witness :
  Py.count_char "010" "Train" = 0%nat
  ∧ Forall (λ name, Py.count_char "010" name = 0%nat) abcd
  ∧ manifest abcd "Train" = manifest abcd "Train"
  ∧ Py.count_char "010" (manifest abcd "Train") = length abcd
  ∧ abcd = abcd.
Proof.
  assert (Forall (λ name, Py.count_char "010" name = 0%nat) abcd) as Hl
    by (repeat constructor).
  split; [reflexivity|]. split; [exact Hl|]. split; [reflexivity|].
  destruct (X6_manifest_inj "Train" abcd abcd) as [Hcount Hinj];
    [reflexivity|exact Hl|exact Hl|].
  split; [exact Hcount|]. by apply Hinj.
Defined.



Lemma X13_main_idempotent_witness :
  ∃ w1, main abcd_world = Returns () w1
        ∧ ∃ w2, main w1 = Returns () w2 ∧ fs w2 = fs w1 ∧ heap w1 ⊆ heap w2.
Proof.
  destruct (returns_elim _ _ _ (main_returns abcd_world)) as ([] & w1 & Hm & _).
  exists w1. split; [exact Hm|].
  exact (X13_main_idempotent abcd_world w1 Hm).
Defined.
